(** * trendsapi: the trend aggregator and its source adapters

    A shallow embedding of [main.py] (sentiment scoring, dispatch and
    response assembly) and of [api_handlers.py] (the Amazon, eBay, Etsy and
    Google adapters).

    Modelling conventions.
    - Python values that travel in [Dict[str, Any]] payloads are the
      inductive [pyval]; a dict is an association list in insertion order,
      looked up by its first matching key.
    - A Python float is a finite number, held as the rational [Q] it
      denotes, and arithmetic on floats is exact; numeric results are
      compared with [Qeq] ([==]).  NaN and the infinities are not among
      these values, so a property stated over [pyval] is a property of
      runs over finite numbers.  An [int] too large for a float raises
      [OverflowError] where Python converts it.  Where rounding or NaN decide a property, the
      expression is read a second time in IEEE binary64, the arithmetic of
      Python's floats ([sum64], [avg_price64], [min64], [max64],
      [sentiment64], [share_float]).
    - A [str] is held as its UTF-8 encoding; its length is the number of
      its code points ([str_len]).  [lower] maps the ASCII letters, where
      [str.lower] also maps letters outside ASCII: what depends on it is
      stated for ASCII strings ([is_ascii]).
    - A raised exception is the [Raise] case of [res]; code that talks to
      a remote source runs in [M], which also threads the log of remote
      calls made so far. *)

From Stdlib Require Import ZArith QArith Qminmax Bool List String Ascii Lia.
From Stdlib Require Import Floats Uint63.
Import ListNotations.
Open Scope string_scope.
Open Scope Z_scope.
Open Scope Q_scope.

Set Implicit Arguments.
Set Warnings "-register-all,-inexact-float".

(** ** Python values

    [PyFloat q] is the finite float whose value is [q]. *)

Inductive pyval : Type :=
| PyNone
| PyBool (b : bool)
| PyInt (z : Z)
| PyFloat (q : Q)
| PyStr (s : string)
| PyList (l : list pyval)
| PyDict (d : list (string * pyval)).

(** ** Exceptions

    Every exception the modelled code can raise derives from Python's
    [Exception].  [Exception_ ctx e] is [Exception(f"{ctx}: {str(e)}")];
    [HTTPException status detail cause] carries the wrapped exception
    whose text is interpolated into its detail, if any. *)

Inductive exn : Type :=
| AttributeError
| TypeError
| KeyError
| IndexError
| ValueError
| ZeroDivisionError
| OverflowError
| RemoteFailure (msg : string)
| ValidationError (fields : list string)
| Exception_ (context : string) (cause : exn)
| HTTPException (status_code : Z) (detail : string) (cause : option exn).

Inductive res (A : Type) : Type :=
| Ok (a : A)
| Raise (e : exn).

Arguments Ok {A} a.
Arguments Raise {A} e.

Definition res_bind {A B} (c : res A) (k : A -> res B) : res B :=
  match c with
  | Ok a => k a
  | Raise e => Raise e
  end.

(** [try: c  except Exception as e: h e] *)
Definition try_except {A} (c : res A) (h : exn -> res A) : res A :=
  match c with
  | Ok a => Ok a
  | Raise e => h e
  end.

Declare Scope res_scope.
Delimit Scope res_scope with res.
Notation "'let!' x ':=' c 'in' k" := (res_bind c (fun x => k))
  (at level 10, x name, c at level 100, k at level 200) : res_scope.
Open Scope res_scope.

(** ** Builtins on Python values *)

Fixpoint assoc_get {V} (d : list (string * V)) (k : string) : option V :=
  match d with
  | [] => None
  | (k', v) :: d' => if String.eqb k' k then Some v else assoc_get d' k
  end.

(** [d.get(k, default)]: only a dict has the method. *)
Definition py_get (d : pyval) (k : string) (default : pyval) : res pyval :=
  match d with
  | PyDict kv =>
      match assoc_get kv k with
      | Some v => Ok v
      | None => Ok default
      end
  | _ => Raise AttributeError
  end.

(** [d[k]] with a string key. *)
Definition py_getitem (d : pyval) (k : string) : res pyval :=
  match d with
  | PyDict kv =>
      match assoc_get kv k with
      | Some v => Ok v
      | None => Raise KeyError
      end
  | _ => Raise TypeError
  end.

(** [k in d] with a string key, for the containers of the model. *)
Definition py_contains (k : string) (d : pyval) : res bool :=
  match d with
  | PyDict kv =>
      Ok (match assoc_get kv k with Some _ => true | None => false end)
  | PyList l =>
      Ok (existsb (fun v => match v with
                            | PyStr s => String.eqb s k
                            | _ => false
                            end) l)
  | PyStr s =>
      Ok (match index 0 k s with Some _ => true | None => false end)
  | _ => Raise TypeError
  end.

(** [v == s] where [s] is a [str]; a [str]-valued enum member compares
    as its value. *)
Definition py_eq_str (v : pyval) (s : string) : bool :=
  match v with
  | PyStr s' => String.eqb s' s
  | _ => false
  end.

(** Truth value of an object in a condition. *)
Definition py_truthy (v : pyval) : bool :=
  match v with
  | PyNone => false
  | PyBool b => b
  | PyInt z => negb (Z.eqb z 0)
  | PyFloat q => negb (Qeq_bool q 0)
  | PyStr s => negb (String.eqb s "")
  | PyList l => match l with [] => false | _ => true end
  | PyDict d => match d with [] => false | _ => true end
  end.

(** The numeric reading of a value in arithmetic: [bool] is an [int]. *)
Definition py_num (v : pyval) : option Q :=
  match v with
  | PyBool b => Some (if b then 1 else 0)
  | PyInt z => Some (inject_Z z)
  | PyFloat q => Some q
  | _ => None
  end.

(** The least integer that no longer converts to a float: half an ulp
    above the largest binary64 number. *)
Definition float_overflow : Z := 2 ^ 1024 - 2 ^ 970.

(** [float(z)] of an [int]. *)
Definition float_of_int (z : Z) : res Q :=
  if (Z.abs z <? float_overflow)%Z then Ok (inject_Z z)
  else Raise OverflowError.

(** An operand of float arithmetic: a [float] as it is, a [bool] or an
    [int] converted, anything else a [TypeError]. *)
Definition float_operand (v : pyval) : res Q :=
  match v with
  | PyBool b => Ok (if b then 1 else 0)
  | PyInt z => float_of_int z
  | PyFloat q => Ok q
  | _ => Raise TypeError
  end.

(** [a / b], true division by a float [b]: [a] becomes a float first. *)
Definition py_truediv (a : pyval) (b : Q) : res Q :=
  let! x := float_operand a in
  if Qeq_bool b 0 then Raise ZeroDivisionError else Ok (x / b).

Definition Qltb (x y : Q) : bool := negb (Qle_bool y x).

(** [min(a, b)] of two floats: the first argument unless the second is
    strictly smaller. *)
Definition py_min2 (a b : Q) : Q := if Qltb b a then b else a.

(** ** [main.py]: enumerations *)

Inductive Platform : Type := AMAZON | EBAY | GOOGLE.

Definition Platform_value (p : Platform) : string :=
  match p with
  | AMAZON => "amazon"
  | EBAY => "ebay"
  | GOOGLE => "google"
  end.

Definition Platform_eqb (p q : Platform) : bool :=
  match p, q with
  | AMAZON, AMAZON | EBAY, EBAY | GOOGLE, GOOGLE => true
  | _, _ => false
  end.

(** ** [main.py]: [calculate_market_sentiment] *)

(** The body of the [try] block. *)
Definition sentiment_rule (trend_data platform : pyval) : res Q :=
  if py_eq_str platform (Platform_value AMAZON) then
    let! review_metrics := py_get trend_data "review_metrics" (PyDict []) in
    let! avg_rating := py_get review_metrics "avg_rating" (PyInt 0) in
    let! r := py_truediv avg_rating 5 in
    Ok (py_min2 r 1)
  else if py_eq_str platform (Platform_value EBAY) then
    let! condition_dist :=
      py_get trend_data "condition_distribution" (PyDict []) in
    let! new_percentage := py_get condition_dist "New" (PyInt 0) in
    let! r := py_truediv new_percentage 100 in
    Ok (py_min2 r 1)
  else if py_eq_str platform (Platform_value GOOGLE) then
    let! trend_summary := py_get trend_data "trend_summary" (PyDict []) in
    let! avg_interest := py_get trend_summary "average_interest" (PyInt 0) in
    let! r := py_truediv avg_interest 100 in
    Ok (py_min2 r 1)
  else Ok (1 # 2).

Definition calculate_market_sentiment (trend_data platform : pyval) : res Q :=
  try_except (sentiment_rule trend_data platform) (fun _ => Ok (1 # 2)).

(** ** Statistics over a price sample

    The three marketplace adapters summarise their price list with the
    same expressions; they are written once here. *)

(** [sum(prices)], starting from the integer 0; exact, [sum64] is the
    rounded sum. *)
Definition py_sum (l : list Q) : Q := fold_left Qplus l 0.

(** [len(l)] *)
Definition py_len {A} (l : list A) : Z := Z.of_nat (List.length l).

(** [min(l)] of finite floats: the first smallest element; an empty
    argument is an error. *)
Definition py_min (l : list Q) : res Q :=
  match l with
  | [] => Raise ValueError
  | x :: l' => Ok (fold_left (fun best y => if Qltb y best then y else best) l' x)
  end.

(** [max(l)] of finite floats: the first largest element; an empty
    argument is an error. *)
Definition py_max (l : list Q) : res Q :=
  match l with
  | [] => Raise ValueError
  | x :: l' => Ok (fold_left (fun best y => if Qltb best y then y else best) l' x)
  end.

(** [a / b] on numbers already known to be numbers. *)
Definition num_div (a b : Q) : res Q :=
  if Qeq_bool b 0 then Raise ZeroDivisionError else Ok (a / b).

(** [sum(prices) / len(prices) if prices else 0]; the quotient is exact,
    [avg_price64] is the rounded one. *)
Definition avg_price_expr (prices : list Q) : res pyval :=
  match prices with
  | _ :: _ =>
      let! a := num_div (py_sum prices) (inject_Z (py_len prices)) in
      Ok (PyFloat a)
  | [] => Ok (PyInt 0)
  end.

(** [{"min": min(prices) if prices else 0, "max": max(prices) if prices else 0}] *)
Definition price_range_expr (prices : list Q) : res pyval :=
  let! lo := match prices with
             | _ :: _ => let! m := py_min prices in Ok (PyFloat m)
             | [] => Ok (PyInt 0)
             end in
  let! hi := match prices with
             | _ :: _ => let! m := py_max prices in Ok (PyFloat m)
             | [] => Ok (PyInt 0)
             end in
  Ok (PyDict [("min", lo); ("max", hi)]).

(** A loop [for x in l: body], threading the loop variables [s]; an
    exception raised by the body leaves the loop. *)
Fixpoint for_each {A S} (body : S -> A -> res S) (l : list A) (s : S) : res S :=
  match l with
  | [] => Ok s
  | x :: l' => let! s' := body s x in for_each body l' s'
  end.

(** ** Remote calls and their log *)

Inductive TimeFrame : Type :=
| LAST_HOUR | LAST_DAY | LAST_WEEK | LAST_MONTH
| LAST_3_MONTHS | LAST_12_MONTHS | LAST_5_YEARS.

Definition TimeFrame_value (t : TimeFrame) : string :=
  match t with
  | LAST_HOUR => "now 1-H"
  | LAST_DAY => "now 1-d"
  | LAST_WEEK => "now 7-d"
  | LAST_MONTH => "today 1-m"
  | LAST_3_MONTHS => "today 3-m"
  | LAST_12_MONTHS => "today 12-m"
  | LAST_5_YEARS => "today 5-y"
  end.

(** The search request handed to the eBay Finding API. *)
Record EbayRequest : Type := {
  keywords : string;
  entriesPerPage : Z;
  sortOrder : string;
  itemFilter : option (list (string * string))
}.

(** One entry per call that leaves the process. *)
Inductive Call : Type :=
| amazon_search_items (kw : string)
| ebay_execute (verb : string) (request : EbayRequest)
| etsy_findAllListings (kw : string) (limit : Z) (includes : list string)
    (country : option string)
| pytrends_build_payload (kw_list : list string) (timeframe : option TimeFrame)
    (geo : string)
| pytrends_interest_over_time
| pytrends_related_queries
| pytrends_related_topics.

(** Computations that may call a remote source: they return a result or
    raise, and extend the log of calls. *)
Definition M (A : Type) : Type := list Call -> res A * list Call.

Definition ret {A} (a : A) : M A := fun log => (Ok a, log).

Definition raise {A} (e : exn) : M A := fun log => (Raise e, log).

Definition bind {A B} (c : M A) (k : A -> M B) : M B :=
  fun log =>
    match c log with
    | (Ok a, log') => k a log'
    | (Raise e, log') => (Raise e, log')
    end.

(** A computation that makes no call. *)
Definition lift {A} (r : res A) : M A := fun log => (r, log).

(** The call [c], answered by the source with [r]. *)
Definition remote {A} (c : Call) (r : res A) : M A :=
  fun log => (r, (log ++ [c])%list).

(** [try: c  except Exception as e: h e] around calls. *)
Definition try_M {A} (c : M A) (h : exn -> M A) : M A :=
  fun log =>
    match c log with
    | (Ok a, log') => (Ok a, log')
    | (Raise e, log') => h e log'
    end.

Declare Scope M_scope.
Delimit Scope M_scope with M.
Notation "x <- c ;; k" := (bind c (fun x => k))
  (at level 61, c at next level, right associativity) : M_scope.
Open Scope M_scope.

(** ** What the remote sources answer *)

(** Amazon Product Advertising API objects, as far as the adapter reads
    them: [item.offers.listings[0].price.amount], [item.rating.count] and
    [item.rating.value]. *)
Record Price : Type := { amount : Q }.
Record Listing : Type := { price : Price }.
Record Offers : Type := { listings : list Listing }.
Record Rating : Type := { count : Z; value : Q }.
Record Item : Type := { offers : option Offers; rating : option Rating }.

(** eBay [searchResult]: [item] is [None] when the reply has no such
    attribute; [sellingStatus] holds [currentPrice.value] when the item has
    the attribute. *)
Record EbayItem : Type := { sellingStatus : option pyval }.
Record SearchResult : Type := {
  totalEntries : pyval;
  item : option (list EbayItem)
}.

(** pytrends: a data frame with its date index already formatted and its
    columns as lists; a related-terms entry with each frame already turned
    into records, [None] where pytrends gives [None]. *)
Record DataFrame : Type := {
  empty : bool;
  index_dates : list string;
  columns : list (string * list pyval)
}.
Record Related : Type := { top : option pyval; rising : option pyval }.

Record World : Type := {
  now_isoformat : string;
  amazon_items : string -> res (list Item);
  ebay_reply : string -> EbayRequest -> res SearchResult;
  etsy_listings : string -> option string -> res (list pyval);
  pytrends_payload : list string -> option TimeFrame -> string -> res unit;
  pytrends_interest : list string -> option TimeFrame -> string -> res DataFrame;
  pytrends_queries :
    list string -> option TimeFrame -> string -> res (list (string * Related));
  pytrends_topics :
    list string -> option TimeFrame -> string -> res (list (string * Related))
}.

(** A string of ASCII characters only. *)
Definition is_ascii (s : string) : bool :=
  forallb (fun c => Nat.ltb (nat_of_ascii c) 128) (list_ascii_of_string s).

(** [s.lower()] of an ASCII string: the letters A to Z are mapped, every
    other character is kept. *)
Definition lower_ascii (c : ascii) : ascii :=
  let n := nat_of_ascii c in
  if (Nat.leb 65 n && Nat.leb n 90)%bool then ascii_of_nat (n + 32) else c.

Fixpoint lower (s : string) : string :=
  match s with
  | EmptyString => EmptyString
  | String c s' => String (lower_ascii c) (lower s')
  end.

(** ** [main.py]: request and response models *)

Module TrendRequest.
Record t : Type := {
  platform : Platform;
  country : string;
  keyword : string;
  timeframe : option TimeFrame
}.
End TrendRequest.

Module PriceRange.
Record t : Type := { min : Q; max : Q }.
End PriceRange.

Module TrendData.
Record t : Type := {
  platform : string;
  country : string;
  keyword : string;
  timestamp : string;
  trend_data : pyval;
  price_range : option PriceRange.t;
  search_volume : option Z;
  market_sentiment : option Q;
  error : option string
}.
End TrendData.

(** The JSON body of a request before validation.  [raw_timeframe] is
    [None] when the field is missing and [Some None] when it is null. *)
Record RawRequest : Type := {
  raw_platform : string;
  raw_country : string;
  raw_keyword : string;
  raw_timeframe : option (option string)
}.

(** Look an enumeration member up by its value. *)
Definition Platform_of_value (s : string) : option Platform :=
  find (fun p => String.eqb (Platform_value p) s) [AMAZON; EBAY; GOOGLE].

Definition TimeFrame_of_value (s : string) : option TimeFrame :=
  find (fun t => String.eqb (TimeFrame_value t) s)
    [LAST_HOUR; LAST_DAY; LAST_WEEK; LAST_MONTH;
     LAST_3_MONTHS; LAST_12_MONTHS; LAST_5_YEARS].

(** [len(s)] of a [str]: the number of code points, one for each byte of
    the encoding that is not a continuation byte (0x80 to 0xBF). *)
Definition is_continuation (c : ascii) : bool :=
  (Nat.leb 128 (nat_of_ascii c) && Nat.ltb (nat_of_ascii c) 192)%bool.

Fixpoint str_len (s : string) : nat :=
  match s with
  | EmptyString => 0
  | String c s' => ((if is_continuation c then 0 else 1) + str_len s')%nat
  end.

(** [Field(..., min_length=lo, max_length=hi)] *)
Definition length_ok (lo hi : nat) (s : string) : bool :=
  (Nat.leb lo (str_len s) && Nat.leb (str_len s) hi)%bool.

(** Validation of the body against [TrendRequest]: the members of the two
    enumerations by value, the two length constraints, and the default of
    [timeframe].  The error names every field that failed. *)
Definition TrendRequest_validate (raw : RawRequest) : res TrendRequest.t :=
  let tf :=
    match raw_timeframe raw with
    | None => Some (Some LAST_3_MONTHS)
    | Some None => Some None
    | Some (Some s) => option_map Some (TimeFrame_of_value s)
    end in
  let errors :=
    ((match Platform_of_value (raw_platform raw) with
      | Some _ => []
      | None => ["platform"]
      end) ++
     (if length_ok 2 56 (raw_country raw) then [] else ["country"]) ++
     (if length_ok 1 100 (raw_keyword raw) then [] else ["keyword"]) ++
     (match tf with Some _ => [] | None => ["timeframe"] end))%list in
  match Platform_of_value (raw_platform raw), tf, errors with
  | Some p, Some t, [] =>
      Ok {| TrendRequest.platform := p;
            TrendRequest.country := raw_country raw;
            TrendRequest.keyword := raw_keyword raw;
            TrendRequest.timeframe := t |}
  | _, _, _ => Raise (ValidationError errors)
  end.

(** The bound methods of [api_handler]. *)
Inductive Handler : Type :=
| amazon_handler
| ebay_handler
| etsy_handler
| google_handler.

(** The dispatch table built in [get_trends]. *)
Definition handlers : list (Platform * Handler) :=
  [(AMAZON, amazon_handler); (EBAY, ebay_handler); (GOOGLE, google_handler)].

(** [table.get(p)] *)
Fixpoint handlers_get (table : list (Platform * Handler)) (p : Platform)
  : option Handler :=
  match table with
  | [] => None
  | (p', h) :: table' => if Platform_eqb p' p then Some h else handlers_get table' p
  end.

(** The handler a source value is dispatched to, if any: the value must
    name a member of [Platform] and the member must be in the table. *)
Definition registered_handler (source : string) : option Handler :=
  match Platform_of_value source with
  | Some p => handlers_get handlers p
  | None => None
  end.

(** ** Notions the properties are stated with *)

Definition sum_of (P : list Q) : Q := fold_right Qplus 0 P.

Definition is_mean (P : list Q) (m : Q) : Prop :=
  m * inject_Z (Z.of_nat (List.length P)) == sum_of P.

Definition is_least (P : list Q) (m : Q) : Prop :=
  In m P /\ forall x, In x P -> m <= x.

Definition is_greatest (P : list Q) (m : Q) : Prop :=
  In m P /\ forall x, In x P -> x <= m.


(** The two shares reported under ["shop_location_distribution"]. *)
Definition shares_of (payload : pyval) : res (pyval * pyval) :=
  let! dist := py_getitem payload "shop_location_distribution" in
  let! dom := py_getitem dist "domestic" in
  let! intl := py_getitem dist "international" in
  Ok (dom, intl).

(** The share [count / total_listings] in IEEE binary64, the arithmetic
    of Python's floats; counts of this size convert to floats exactly. *)
Definition float_of_count (k : Z) : float :=
  PrimFloat.of_uint63 (Uint63.of_Z k).

Definition share_float (k n : Z) : float :=
  PrimFloat.div (float_of_count k) (float_of_count n).

(** [d] domestic among [n] listings: the two shares add up to [1.0]. *)
Definition shares_exact (d n : Z) : bool :=
  PrimFloat.eqb (PrimFloat.add (share_float d n) (share_float (n - d) n))
    1%float.

Definition all_splits (bound : nat) : bool :=
  forallb
    (fun n => forallb (fun d => shares_exact (Z.of_nat d) (Z.of_nat n))
                (seq 0 (S n)))
    (seq 1 bound).

(** The expressions of the price summary and of the sentiment rules in
    binary64.  A sample is the list of floats the loop collected; [None]
    stands for the integer 0 reported for the empty sample. *)



(** [min(prices)] and [max(prices)]: the first element, replaced by each
    later element that compares strictly below, respectively above. *)
Definition min64 (prices : list float) : option float :=
  match prices with
  | x :: l =>
      Some (fold_left (fun best y => if PrimFloat.ltb y best then y else best) l x)
  | [] => None
  end.

Definition max64 (prices : list float) : option float :=
  match prices with
  | x :: l =>
      Some (fold_left (fun best y => if PrimFloat.ltb best y then y else best) l x)
  | [] => None
  end.

(** A sample without NaN. *)
Definition no_nan (prices : list float) : bool :=
  forallb (fun p => negb (PrimFloat.is_nan p)) prices.

(** A zero, a finite number or an infinity of the sign [s] (negative when
    [s] is [true]). *)
Definition signed (s : bool) (f : spec_float) : Prop :=
  f = S754_zero s \/ (exists m e, f = S754_finite s m e) \/ f = S754_infinity s.

(** [min(x / scale, 1.0)] *)
Definition sentiment64 (x scale : float) : float :=
  let r := PrimFloat.div x scale in
  if PrimFloat.ltb 1%float r then 1%float else r.


(** No number anywhere in the value is negative. *)
Fixpoint no_negative (v : pyval) : bool :=
  match v with
  | PyInt z => (0 <=? z)%Z
  | PyFloat q => Qle_bool 0 q
  | PyList l => forallb no_negative l
  | PyDict d => forallb (fun kv => no_negative (snd kv)) d
  | _ => true
  end.

(** What the first items of an Amazon result contribute: the first
    listing's price of each item with an offer, the rating value and the
    review count of each rated item. *)
Definition offered_prices (items : list Item) : list Q :=
  flat_map (fun it =>
              match offers it with
              | Some o =>
                  match listings o with
                  | l0 :: _ => [amount (price l0)]
                  | [] => []
                  end
              | None => []
              end) items.

Definition rated_values (items : list Item) : list Q :=
  flat_map (fun it =>
              match rating it with
              | Some r => [value r]
              | None => []
              end) items.

Definition review_total (items : list Item) : Z :=
  fold_right Z.add 0%Z
    (flat_map (fun it =>
                 match rating it with
                 | Some r => [count r]
                 | None => []
                 end) items).

(** An item with an offer has at least one listing. *)
Definition well_offered (it : Item) : bool :=
  match offers it with
  | Some o => match listings o with [] => false | _ :: _ => true end
  | None => true
  end.

(** The text each adapter puts before the message of a failure it
    re-raises. *)
Definition source_context (p : Platform) : string :=
  match p with
  | AMAZON => "Amazon API error"
  | EBAY => "eBay API error"
  | GOOGLE => "Google Trends API error"
  end.

(** The two requests the eBay adapter sends: the search for active
    listings, filtered by country when one is given, and the search for
    sold listings. *)
Definition active_request (kw c : string) : EbayRequest :=
  {| keywords := kw;
     entriesPerPage := 100;
     sortOrder := "BestMatch";
     itemFilter :=
       if String.eqb c "" then None else Some [("LocatedIn", c)] |}.

Definition sold_request (kw : string) : EbayRequest :=
  {| keywords := kw;
     entriesPerPage := 100;
     sortOrder := "BestMatch";
     itemFilter := Some [("SoldItemsOnly", "true")] |}.


(** A listing counts as domestic when it is a dict whose ["Shop"] entry
    is a dict whose ["country_id"] equals the requested country. *)
Definition is_domestic (c : string) (listing : pyval) : bool :=
  match listing with
  | PyDict d =>
      match assoc_get d "Shop" with
      | Some (PyDict shop) =>
          match assoc_get shop "country_id" with
          | Some v => py_eq_str v c
          | None => false
          end
      | _ => false
      end
  | _ => false
  end.

Definition count_domestic (c : string) (listings : list pyval) : Z :=
  py_len (filter (is_domestic c) listings).


(** The summary entry, the metric under it and the full scale that the
    sentiment rule of each platform uses. *)
Definition summary_key (p : Platform) : string :=
  match p with
  | AMAZON => "review_metrics"
  | EBAY => "condition_distribution"
  | GOOGLE => "trend_summary"
  end.

Definition metric_key (p : Platform) : string :=
  match p with
  | AMAZON => "avg_rating"
  | EBAY => "New"
  | GOOGLE => "average_interest"
  end.

Definition full_scale (p : Platform) : Q :=
  match p with
  | AMAZON => 5
  | EBAY => 100
  | GOOGLE => 100
  end.

(** The platform whose source a remote call goes to; the Etsy source
    belongs to none of the platforms. *)
Definition call_source (c : Call) : option Platform :=
  match c with
  | amazon_search_items _ => Some AMAZON
  | ebay_execute _ _ => Some EBAY
  | etsy_findAllListings _ _ _ _ => None
  | pytrends_build_payload _ _ _ => Some GOOGLE
  | pytrends_interest_over_time => Some GOOGLE
  | pytrends_related_queries => Some GOOGLE
  | pytrends_related_topics => Some GOOGLE
  end.

(** The largest number of remote calls one request to a platform makes. *)
Definition call_budget (p : Platform) : nat :=
  match p with
  | AMAZON => 1
  | EBAY => 2
  | GOOGLE => 4
  end.

(** ** Scenarios *)

(** Conversions for runs that hand no string to [float] or [int]. *)
Definition no_float : string -> option Q := fun _ => None.
Definition no_int : string -> option Z := fun _ => None.

Definition priced (p : Q) (r : option Rating) : Item :=
  {| offers := Some {| listings := [{| price := {| amount := p |} |}] |};
     rating := r |}.

Definition etsy_listing (p : Q) (shop_country : string) : pyval :=
  PyDict [("price", PyFloat p);
          ("is_handmade", PyBool true);
          ("Shop", PyDict [("country_id", PyStr shop_country)])].

Definition canadian_listings : list pyval :=
  [etsy_listing 12 "Canada"; etsy_listing 30 "France"; etsy_listing 18 "Canada"].

(** Three Amazon results priced 10, 20 and 30, rated 4, 5 and not at all;
    an eBay reply with [totalEntries] 500 and one page of two items priced
    50 and 70; the three Etsy listings above, two of them from Canada; no
    Google data. *)
Definition market : World :=
  {| now_isoformat := "2024-05-01T12:00:00";
     amazon_items := fun _ =>
       Ok [priced 10 (Some {| count := 120; value := 4 |});
           priced 20 (Some {| count := 80; value := 5 |});
           priced 30 None];
     ebay_reply := fun _ _ =>
       Ok {| totalEntries := PyInt 500;
             item := Some [{| sellingStatus := Some (PyFloat 50) |};
                           {| sellingStatus := Some (PyFloat 70) |}] |};
     etsy_listings := fun _ _ => Ok canadian_listings;
     pytrends_payload := fun _ _ _ => Ok tt;
     pytrends_interest := fun _ _ _ =>
       Ok {| empty := true; index_dates := []; columns := [] |};
     pytrends_queries := fun kw _ _ =>
       Ok (map (fun k => (k, {| top := None; rising := None |})) kw);
     pytrends_topics := fun kw _ _ =>
       Ok (map (fun k => (k, {| top := None; rising := None |})) kw) |}.

(** As [market], but Amazon returns two results without an offer. *)
Definition unpriced_market : World :=
  {| now_isoformat := now_isoformat market;
     amazon_items := fun _ =>
       Ok [{| offers := None; rating := Some {| count := 3; value := 4 |} |};
           {| offers := None; rating := None |}];
     ebay_reply := ebay_reply market;
     etsy_listings := etsy_listings market;
     pytrends_payload := pytrends_payload market;
     pytrends_interest := pytrends_interest market;
     pytrends_queries := pytrends_queries market;
     pytrends_topics := pytrends_topics market |}.

Definition headphones : TrendRequest.t :=
  {| TrendRequest.platform := AMAZON;
     TrendRequest.country := "United States";
     TrendRequest.keyword := "wireless headphones";
     TrendRequest.timeframe := Some LAST_3_MONTHS |}.

Definition smart_watch : TrendRequest.t :=
  {| TrendRequest.platform := EBAY;
     TrendRequest.country := "United Kingdom";
     TrendRequest.keyword := "smart watch";
     TrendRequest.timeframe := Some LAST_3_MONTHS |}.

Definition jewelry_on_etsy : RawRequest :=
  {| raw_platform := "etsy";
     raw_country := "Canada";
     raw_keyword := "handmade jewelry";
     raw_timeframe := None |}.

(** A rating of -5 under the field the Amazon rule reads. *)
Definition negative_rating : pyval :=
  PyDict [("review_metrics", PyDict [("avg_rating", PyInt (-5))])].

(** Twenty-five unrated Amazon results priced 5. *)
Definition crowded_market : World :=
  {| now_isoformat := now_isoformat market;
     amazon_items := fun _ => Ok (repeat (priced 5 None) 25);
     ebay_reply := ebay_reply market;
     etsy_listings := etsy_listings market;
     pytrends_payload := pytrends_payload market;
     pytrends_interest := pytrends_interest market;
     pytrends_queries := pytrends_queries market;
     pytrends_topics := pytrends_topics market |}.

(** An Amazon result whose second item has an offer without a listing. *)
Definition broken_offer_market : World :=
  {| now_isoformat := now_isoformat market;
     amazon_items := fun _ =>
       Ok [priced 10 None;
           {| offers := Some {| listings := [] |}; rating := None |}];
     ebay_reply := ebay_reply market;
     etsy_listings := etsy_listings market;
     pytrends_payload := pytrends_payload market;
     pytrends_interest := pytrends_interest market;
     pytrends_queries := pytrends_queries market;
     pytrends_topics := pytrends_topics market |}.

(** As [market], but the Amazon source cannot be reached. *)
Definition offline_market : World :=
  {| now_isoformat := now_isoformat market;
     amazon_items := fun _ => Raise (RemoteFailure "connection timed out");
     ebay_reply := ebay_reply market;
     etsy_listings := etsy_listings market;
     pytrends_payload := pytrends_payload market;
     pytrends_interest := pytrends_interest market;
     pytrends_queries := pytrends_queries market;
     pytrends_topics := pytrends_topics market |}.

(** eBay replies whose [totalEntries] is not a number, and whose active
    search has no [item] attribute. *)
Definition unreadable_total_market : World :=
  {| now_isoformat := now_isoformat market;
     amazon_items := amazon_items market;
     ebay_reply := fun _ _ => Ok {| totalEntries := PyNone; item := Some [] |};
     etsy_listings := etsy_listings market;
     pytrends_payload := pytrends_payload market;
     pytrends_interest := pytrends_interest market;
     pytrends_queries := pytrends_queries market;
     pytrends_topics := pytrends_topics market |}.

Definition no_result_market : World :=
  {| now_isoformat := now_isoformat market;
     amazon_items := amazon_items market;
     ebay_reply := fun _ _ => Ok {| totalEntries := PyInt 0; item := None |};
     etsy_listings := etsy_listings market;
     pytrends_payload := pytrends_payload market;
     pytrends_interest := pytrends_interest market;
     pytrends_queries := pytrends_queries market;
     pytrends_topics := pytrends_topics market |}.

(** Etsy listings of which the second has no price. *)
Definition unpriced_listing_market : World :=
  {| now_isoformat := now_isoformat market;
     amazon_items := amazon_items market;
     ebay_reply := ebay_reply market;
     etsy_listings := fun _ _ =>
       Ok [etsy_listing 12 "Canada";
           PyDict [("is_vintage", PyBool true)]];
     pytrends_payload := pytrends_payload market;
     pytrends_interest := pytrends_interest market;
     pytrends_queries := pytrends_queries market;
     pytrends_topics := pytrends_topics market |}.

(** A body with a one-letter country, an empty keyword and a timeframe
    that is no member of the enumeration. *)
Definition malformed_body : RawRequest :=
  {| raw_platform := "amazon";
     raw_country := "X";
     raw_keyword := "";
     raw_timeframe := Some (Some "last year") |}.

Definition headphones_in_canada : TrendRequest.t :=
  {| TrendRequest.platform := AMAZON;
     TrendRequest.country := "Canada";
     TrendRequest.keyword := "wireless headphones";
     TrendRequest.timeframe := Some LAST_HOUR |}.

(** Trend data that carries an average rating where the Amazon rule
    reads it. *)
Definition rated (r : pyval) : pyval :=
  PyDict [("review_metrics", PyDict [("avg_rating", r)])].

(** ** [api_handlers.py]: the adapters *)

Section Service.

(** [float(s)] and [int(s)] on a [str]: the number read, or [None] where
    Python raises [ValueError].  Nothing below depends on the grammar of
    numeric literals.  The floats of the model being finite, a reply whose
    text reads as NaN or as an infinity is not among the replies of a
    [World]: the binary64 readings say what the code reports for one. *)
Variable str_to_float : string -> option Q.
Variable str_to_int : string -> option Z.

(** The remote sources and the clock. *)
Variable w : World.

(** [float(v)] *)
Definition py_float (v : pyval) : res Q :=
  match v with
  | PyBool b => Ok (if b then 1 else 0)
  | PyInt z => float_of_int z
  | PyFloat q => Ok q
  | PyStr s =>
      match str_to_float s with
      | Some q => Ok q
      | None => Raise ValueError
      end
  | _ => Raise TypeError
  end.

(** [int(v)]: a float is truncated towards zero. *)
Definition py_int (v : pyval) : res Z :=
  match v with
  | PyBool b => Ok (if b then 1 else 0)%Z
  | PyInt z => Ok z
  | PyFloat q => Ok (Z.quot (Qnum q) (Zpos (Qden q)))
  | PyStr s =>
      match str_to_int s with
      | Some z => Ok z
      | None => Raise ValueError
      end
  | _ => Raise TypeError
  end.

(** *** Amazon *)

(** The loop variables of [fetch_amazon_trends]. *)
Record AmazonAcc : Type := {
  a_prices : list Q;
  total_reviews : Z;
  total_rating : Q;
  product_count : Z
}.

Definition amazon_body (acc : AmazonAcc) (it : Item) : res AmazonAcc :=
  let! prices :=
    match offers it with
    | Some o =>
        match listings o with
        | l0 :: _ => Ok (a_prices acc ++ [amount (price l0)])%list
        | [] => Raise IndexError
        end
    | None => Ok (a_prices acc)
    end in
  let '(reviews, ratings) :=
    match rating it with
    | Some r => ((total_reviews acc + count r)%Z, total_rating acc + value r)
    | None => (total_reviews acc, total_rating acc)
    end in
  Ok {| a_prices := prices;
        total_reviews := reviews;
        total_rating := ratings;
        product_count := (product_count acc + 1)%Z |}.

Definition amazon_loop (items : list Item) : res AmazonAcc :=
  for_each amazon_body (firstn 20 items)
    {| a_prices := []; total_reviews := 0%Z; total_rating := 0;
       product_count := 0%Z |}.

Definition amazon_payload (acc : AmazonAcc) : res pyval :=
  let! avg_price := avg_price_expr (a_prices acc) in
  let! price_range := price_range_expr (a_prices acc) in
  let! avg_rating :=
    if (0 <? product_count acc)%Z then
      let! r := num_div (total_rating acc) (inject_Z (product_count acc)) in
      Ok (PyFloat r)
    else Ok (PyInt 0) in
  Ok (PyDict [("avg_price", avg_price);
              ("price_range", price_range);
              ("review_count", PyInt (total_reviews acc));
              ("avg_rating", avg_rating);
              ("total_products", PyInt (product_count acc))]).

Definition fetch_amazon_trends (keyword country : string) : M pyval :=
  try_M
    (items <- remote (amazon_search_items keyword) (amazon_items w keyword) ;;
     acc <- lift (amazon_loop items) ;;
     lift (amazon_payload acc))
    (fun e => raise (Exception_ "Amazon API error" e)).

(** *** eBay *)

Definition ebay_body (prices : list Q) (it : EbayItem) : res (list Q) :=
  match sellingStatus it with
  | Some v => let! p := py_float v in Ok (prices ++ [p])%list
  | None => Ok prices
  end.

Definition ebay_payload (active_listings : Z)
    (results completed_results : SearchResult) (prices : list Q) : res pyval :=
  let sold :=
    match item completed_results with
    | Some l => py_len l
    | None => 0%Z
    end in
  let! avg_price := avg_price_expr prices in
  let! price_range := price_range_expr prices in
  let total :=
    match item results with
    | Some l => py_len l
    | None => 0%Z
    end in
  Ok (PyDict [("active_listings", PyInt active_listings);
              ("sold_last_month", PyInt sold);
              ("avg_price", avg_price);
              ("price_range", price_range);
              ("total_results", PyInt total)]).

Definition fetch_ebay_trends (keyword country : string) : M pyval :=
  try_M
    (let search_request :=
       {| keywords := keyword;
          entriesPerPage := 100;
          sortOrder := "BestMatch";
          itemFilter :=
            if String.eqb country "" then None
            else Some [("LocatedIn", country)] |} in
     results <- remote (ebay_execute "findItemsAdvanced" search_request)
                  (ebay_reply w "findItemsAdvanced" search_request) ;;
     active_listings <- lift (py_int (totalEntries results)) ;;
     let completed_request :=
       {| keywords := keywords search_request;
          entriesPerPage := entriesPerPage search_request;
          sortOrder := sortOrder search_request;
          itemFilter := Some [("SoldItemsOnly", "true")] |} in
     completed_results <-
       remote (ebay_execute "findCompletedItems" completed_request)
         (ebay_reply w "findCompletedItems" completed_request) ;;
     items <- lift (match item results with
                    | Some l => Ok l
                    | None => Raise AttributeError
                    end) ;;
     prices <- lift (for_each ebay_body items []) ;;
     lift (ebay_payload active_listings results completed_results prices))
    (fun e => raise (Exception_ "eBay API error" e)).

(** *** Etsy *)

(** The loop variables of [fetch_etsy_trends]. *)
Record EtsyAcc : Type := {
  e_prices : list Q;
  handmade_count : Z;
  vintage_count : Z;
  domestic : Z;
  international : Z
}.

Definition etsy_body (country : string) (acc : EtsyAcc) (listing : pyval)
  : res EtsyAcc :=
  let! raw_price := py_getitem listing "price" in
  let! p := py_float raw_price in
  let! is_handmade := py_get listing "is_handmade" PyNone in
  let! is_vintage := py_get listing "is_vintage" PyNone in
  let! shop := py_get listing "Shop" (PyDict []) in
  let! country_id := py_get shop "country_id" PyNone in
  let here := py_eq_str country_id country in
  Ok {| e_prices := (e_prices acc ++ [p])%list;
        handmade_count :=
          (if py_truthy is_handmade then handmade_count acc + 1
           else handmade_count acc)%Z;
        vintage_count :=
          (if py_truthy is_vintage then vintage_count acc + 1
           else vintage_count acc)%Z;
        domestic := (if here then domestic acc + 1 else domestic acc)%Z;
        international :=
          (if here then international acc else international acc + 1)%Z |}.

(** [count / total_listings if total_listings > 0 else 0] *)
Definition share_expr (n total_listings : Z) : res pyval :=
  if (0 <? total_listings)%Z then
    let! r := num_div (inject_Z n) (inject_Z total_listings) in
    Ok (PyFloat r)
  else Ok (PyInt 0).

Definition etsy_payload (total_listings : Z) (acc : EtsyAcc) : res pyval :=
  let! avg_price := avg_price_expr (e_prices acc) in
  let! price_range := price_range_expr (e_prices acc) in
  let! dom := share_expr (domestic acc) total_listings in
  let! intl := share_expr (international acc) total_listings in
  Ok (PyDict [("total_listings", PyInt total_listings);
              ("avg_price", avg_price);
              ("price_range", price_range);
              ("handmade_count", PyInt (handmade_count acc));
              ("vintage_count", PyInt (vintage_count acc));
              ("shop_location_distribution",
               PyDict [("domestic", dom); ("international", intl)])]).

Definition etsy_loop (country : string) (listings : list pyval) : res EtsyAcc :=
  for_each (etsy_body country) listings
    {| e_prices := []; handmade_count := 0%Z; vintage_count := 0%Z;
       domestic := 0%Z; international := 0%Z |}.

Definition fetch_etsy_trends (keyword country : string) : M pyval :=
  try_M
    (let region := if String.eqb country "" then None else Some country in
     listings <-
       remote (etsy_findAllListings keyword 100 ["MainImage"; "Shop"] region)
         (etsy_listings w keyword region) ;;
     acc <- lift (etsy_loop country listings) ;;
     lift (etsy_payload (py_len listings) acc))
    (fun e => raise (Exception_ "Etsy API error" e)).

(** *** Google Trends *)

Definition country_codes : list (string * string) :=
  [("united states", "US");
   ("united kingdom", "GB");
   ("canada", "CA");
   ("australia", "AU");
   ("germany", "DE")].

(** [t[keyword][part].to_dict('records') if t[keyword][part] is not None
    else []] *)
Definition related_expr (t : list (string * Related)) (keyword : string)
    (part : Related -> option pyval) : res pyval :=
  match assoc_get t keyword with
  | Some entry =>
      Ok (match part entry with
          | Some records => records
          | None => PyList []
          end)
  | None => Raise KeyError
  end.

Definition google_payload (keyword : string) (interest_data : DataFrame)
    (related_queries related_topics : list (string * Related)) : res pyval :=
  let! interest :=
    if negb (empty interest_data) then
      let dates := PyList (map PyStr (index_dates interest_data)) in
      let! values :=
        match assoc_get (columns interest_data) keyword with
        | Some column => Ok (PyList column)
        | None => Raise KeyError
        end in
      Ok (PyDict [("dates", dates); ("values", values)])
    else Ok (PyDict []) in
  let! queries_top := related_expr related_queries keyword top in
  let! queries_rising := related_expr related_queries keyword rising in
  let! topics_top := related_expr related_topics keyword top in
  let! topics_rising := related_expr related_topics keyword rising in
  Ok (PyDict [("interest_over_time", interest);
              ("related_queries",
               PyDict [("top", queries_top); ("rising", queries_rising)]);
              ("related_topics",
               PyDict [("top", topics_top); ("rising", topics_rising)])]).

Definition fetch_google_trends (keyword country : string)
    (timeframe : option TimeFrame) : M pyval :=
  try_M
    (let country_code :=
       match assoc_get country_codes (lower country) with
       | Some code => code
       | None => "US"
       end in
     _ <- remote (pytrends_build_payload [keyword] timeframe country_code)
            (pytrends_payload w [keyword] timeframe country_code) ;;
     interest_data <-
       remote pytrends_interest_over_time
         (pytrends_interest w [keyword] timeframe country_code) ;;
     related_queries <-
       remote pytrends_related_queries
         (pytrends_queries w [keyword] timeframe country_code) ;;
     related_topics <-
       remote pytrends_related_topics
         (pytrends_topics w [keyword] timeframe country_code) ;;
     lift (google_payload keyword interest_data related_queries related_topics))
    (fun e => raise (Exception_ "Google Trends API error" e)).

(** ** [main.py]: [get_trends] *)

(** [handler(keyword, country)]: the Google method wants a third
    argument. *)
Definition call2 (h : Handler) (keyword country : string) : M pyval :=
  match h with
  | amazon_handler => fetch_amazon_trends keyword country
  | ebay_handler => fetch_ebay_trends keyword country
  | etsy_handler => fetch_etsy_trends keyword country
  | google_handler => raise TypeError
  end.

(** [handler(keyword, country, timeframe)]: only the Google method takes
    three arguments. *)
Definition call3 (h : Handler) (keyword country : string)
    (timeframe : option TimeFrame) : M pyval :=
  match h with
  | google_handler => fetch_google_trends keyword country timeframe
  | _ => raise TypeError
  end.

(** [PriceRange(min=lo, max=hi)]: both fields are coerced to float. *)
Definition PriceRange_init (lo hi : pyval) : res PriceRange.t :=
  match py_float lo, py_float hi with
  | Ok a, Ok b => Ok {| PriceRange.min := a; PriceRange.max := b |}
  | Raise _, Ok _ => Raise (ValidationError ["min"])
  | Ok _, Raise _ => Raise (ValidationError ["max"])
  | Raise _, Raise _ => Raise (ValidationError ["min"; "max"])
  end.

(** [PriceRange(...) if "price_range" in trend_data else None] *)
Definition price_range_of (trend_data : pyval) : res (option PriceRange.t) :=
  let! present := py_contains "price_range" trend_data in
  if present : bool then
    let! sub := py_get trend_data "price_range" (PyDict []) in
    let! lo := py_get sub "min" (PyInt 0) in
    let! sub' := py_get trend_data "price_range" (PyDict []) in
    let! hi := py_get sub' "max" (PyInt 0) in
    let! r := PriceRange_init lo hi in
    Ok (Some r)
  else Ok None.

(** Coercion of a value to an [Optional[int]] field. *)
Definition optional_int (v : pyval) : res (option Z) :=
  match v with
  | PyNone => Ok None
  | _ => let! z := py_int v in Ok (Some z)
  end.

(** [TrendData(...)]: [trend_data] must be a dict and [search_volume] is
    coerced to an optional int; the other arguments already have their
    field's type. *)
Definition TrendData_init (platform country keyword timestamp : string)
    (trend_data : pyval) (price_range : option PriceRange.t)
    (search_volume : pyval) (market_sentiment : Q) : res TrendData.t :=
  let dict_errors :=
    match trend_data with
    | PyDict _ => []
    | _ => ["trend_data"]
    end in
  match dict_errors, optional_int search_volume with
  | [], Ok sv =>
      Ok {| TrendData.platform := platform;
            TrendData.country := country;
            TrendData.keyword := keyword;
            TrendData.timestamp := timestamp;
            TrendData.trend_data := trend_data;
            TrendData.price_range := price_range;
            TrendData.search_volume := sv;
            TrendData.market_sentiment := Some market_sentiment;
            TrendData.error := None |}
  | _, Ok _ => Raise (ValidationError dict_errors)
  | _, Raise _ => Raise (ValidationError (dict_errors ++ ["search_volume"]))
  end.

Definition get_trends (request : TrendRequest.t) : M TrendData.t :=
  let platform := TrendRequest.platform request in
  let country := TrendRequest.country request in
  let keyword := TrendRequest.keyword request in
  try_M
    (handler <-
       lift (match handlers_get handlers platform with
             | Some h => Ok h
             | None => Raise (HTTPException 400 "Unsupported platform" None)
             end) ;;
     trend_data <-
       (if Platform_eqb platform GOOGLE
        then call3 handler keyword country (TrendRequest.timeframe request)
        else call2 handler keyword country) ;;
     market_sentiment <-
       lift (calculate_market_sentiment trend_data
               (PyStr (Platform_value platform))) ;;
     price_range <- lift (price_range_of trend_data) ;;
     search_volume <- lift (py_get trend_data "total_products" (PyInt 0)) ;;
     lift (TrendData_init (Platform_value platform) country keyword
             (now_isoformat w) trend_data price_range search_volume
             market_sentiment))
    (fun e => raise (HTTPException 500 "Error processing request" (Some e))).

(** The [/trends/] route: the body is validated against [TrendRequest]
    before [get_trends] runs; the rate-limit dependency does nothing. *)
Definition post_trends (raw : RawRequest) : M TrendData.t :=
  match TrendRequest_validate raw with
  | Ok request => get_trends request
  | Raise e => raise e
  end.

(** The adapter [get_trends] calls for the request's platform. *)
Definition fetched (request : TrendRequest.t) : M pyval :=
  match TrendRequest.platform request with
  | AMAZON =>
      fetch_amazon_trends (TrendRequest.keyword request)
        (TrendRequest.country request)
  | EBAY =>
      fetch_ebay_trends (TrendRequest.keyword request)
        (TrendRequest.country request)
  | GOOGLE =>
      fetch_google_trends (TrendRequest.keyword request)
        (TrendRequest.country request) (TrendRequest.timeframe request)
  end.

(** The steps of [get_trends] after the fetch: scoring and the
    construction of the response. *)
Definition assemble (request : TrendRequest.t) (trend_data : pyval)
  : res TrendData.t :=
  let platform := TrendRequest.platform request in
  let! market_sentiment :=
    calculate_market_sentiment trend_data (PyStr (Platform_value platform)) in
  let! price_range := price_range_of trend_data in
  let! search_volume := py_get trend_data "total_products" (PyInt 0) in
  TrendData_init (Platform_value platform) (TrendRequest.country request)
    (TrendRequest.keyword request) (now_isoformat w) trend_data price_range
    search_volume market_sentiment.

(** The region code the Google adapter asks pytrends for. *)
Definition country_code_of (country : string) : string :=
  match assoc_get country_codes (lower country) with
  | Some code => code
  | None => "US"
  end.

(** ** Properties *)

(** *** Binary64: the order of floats and division by a positive scale

    Facts about the primitive floats, from their specification. *)

Lemma SFcompare_antisym (f1 f2 : spec_float) (c : comparison) :
  SFcompare f1 f2 = Some c -> SFcompare f2 f1 = Some (CompOpp c).
Proof.
  destruct f1 as [s1|s1| |s1 m1 e1], f2 as [s2|s2| |s2 m2 e2]; simpl;
    try discriminate; intros H; injection H as <-;
    try (destruct s1; try destruct s2; reflexivity);
    try (destruct s2; reflexivity).
  assert (Hm : Pos.compare_cont Eq m2 m1 = CompOpp (Pos.compare_cont Eq m1 m2)).
  { now rewrite (Pos.compare_cont_antisym m1 m2 Eq). }
  destruct s1, s2; try reflexivity;
    rewrite (Z.compare_antisym e1 e2); destruct (e1 ?= e2)%Z; simpl;
    try reflexivity; rewrite Hm; now rewrite ?CompOpp_involutive.
Qed.

Lemma SFcompare_refl (f : spec_float) :
  f <> S754_nan -> SFcompare f f = Some Eq.
Proof.
  destruct f as [s|s| |s m e]; simpl; intros H; try reflexivity;
    try (destruct s; reflexivity); [now destruct H|].
  rewrite Z.compare_refl, Pos.compare_cont_refl. now destruct s.
Qed.

Lemma SFcompare_defined (f1 f2 : spec_float) :
  f1 <> S754_nan -> f2 <> S754_nan -> exists c, SFcompare f1 f2 = Some c.
Proof.
  destruct f1 as [s1|s1| |s1 m1 e1], f2 as [s2|s2| |s2 m2 e2]; simpl;
    intros H1 H2; try (now destruct H1); try (now destruct H2);
    eexists; reflexivity.
Qed.

Lemma SFleb_trans (f1 f2 f3 : spec_float) :
  SFleb f1 f2 = true -> SFleb f2 f3 = true -> SFleb f1 f3 = true.
Proof.
  unfold SFleb.
  destruct f1 as [s1|s1| |s1 m1 e1], f2 as [s2|s2| |s2 m2 e2],
           f3 as [s3|s3| |s3 m3 e3]; simpl; try discriminate; try reflexivity;
    try (destruct s1; simpl; try discriminate; try reflexivity);
    try (destruct s2; simpl; try discriminate; try reflexivity);
    try (destruct s3; simpl; try discriminate; try reflexivity).
  all: change (Pos.compare_cont Eq) with Pos.compare.
  all: destruct (Z.compare_spec e1 e2); destruct (Z.compare_spec e2 e3);
    destruct (Z.compare_spec e1 e3);
    destruct (Pos.compare_spec m1 m2); destruct (Pos.compare_spec m2 m3);
    destruct (Pos.compare_spec m1 m3);
    simpl; try discriminate; try reflexivity; intros _ _; exfalso; lia.
Qed.

Lemma is_nan_spec (x : float) :
  PrimFloat.is_nan x = false <-> Prim2SF x <> S754_nan.
Proof.
  unfold PrimFloat.is_nan. rewrite FloatAxioms.eqb_spec. unfold SFeqb. split.
  - intros H E. rewrite E in H. discriminate.
  - intros H. now rewrite (SFcompare_refl H).
Qed.

Lemma float_leb_refl (x : float) :
  PrimFloat.is_nan x = false -> PrimFloat.leb x x = true.
Proof.
  intros Hx. apply is_nan_spec in Hx. rewrite FloatAxioms.leb_spec.
  unfold SFleb. now rewrite (SFcompare_refl Hx).
Qed.

Lemma float_leb_trans (x y z : float) :
  PrimFloat.leb x y = true -> PrimFloat.leb y z = true ->
  PrimFloat.leb x z = true.
Proof.
  rewrite !FloatAxioms.leb_spec. apply SFleb_trans.
Qed.

Lemma float_ltb_leb (x y : float) :
  PrimFloat.ltb x y = true -> PrimFloat.leb x y = true.
Proof.
  rewrite FloatAxioms.ltb_spec, FloatAxioms.leb_spec. unfold SFltb, SFleb.
  destruct (SFcompare (Prim2SF x) (Prim2SF y)) as [[]|];
    try discriminate; reflexivity.
Qed.

(** Two floats that are not NaN are comparable. *)
Lemma float_ltb_false_leb (x y : float) :
  PrimFloat.is_nan x = false -> PrimFloat.is_nan y = false ->
  PrimFloat.ltb x y = false -> PrimFloat.leb y x = true.
Proof.
  intros Hx Hy. apply is_nan_spec in Hx. apply is_nan_spec in Hy.
  destruct (SFcompare_defined Hx Hy) as (c & Hc).
  rewrite FloatAxioms.ltb_spec, FloatAxioms.leb_spec. unfold SFltb, SFleb.
  rewrite Hc, (@SFcompare_antisym _ _ _ Hc). destruct c; simpl; congruence.
Qed.

Lemma shr_1_nonneg (mrs : shr_record) :
  (0 <= shr_m mrs)%Z -> (0 <= shr_m (shr_1 mrs))%Z.
Proof.
  destruct mrs as [m r s]. simpl.
  destruct m as [|p|p]; [| |lia]; intros _; [simpl; lia|].
  destruct p; simpl; lia.
Qed.

Lemma iter_shr_1_nonneg (p : positive) (mrs : shr_record) :
  (0 <= shr_m mrs)%Z -> (0 <= shr_m (iter_pos shr_1 p mrs))%Z.
Proof.
  revert mrs. induction p as [p IH|p IH|]; intros mrs H; simpl.
  - apply IH, IH, shr_1_nonneg, H.
  - apply IH, IH, H.
  - apply shr_1_nonneg, H.
Qed.

Lemma shr_fexp_nonneg (pr em m e : Z) (l : location) :
  (0 <= m)%Z -> (0 <= shr_m (fst (shr_fexp pr em m e l)))%Z.
Proof.
  intros H. unfold shr_fexp, shr.
  assert (H0 : (0 <= shr_m (shr_record_of_loc m l))%Z).
  { destruct l as [|[]]; exact H. }
  destruct (fexp pr em (Zdigits2 m + e) - e)%Z; simpl; try exact H0.
  now apply iter_shr_1_nonneg.
Qed.

Lemma round_nearest_even_nonneg (m : Z) (l : location) :
  (0 <= m)%Z -> (0 <= round_nearest_even m l)%Z.
Proof.
  intros H. destruct l as [|[]]; simpl; try lia.
  destruct (Z.even m); lia.
Qed.

Lemma binary_round_aux_signed (pr em : Z) (sx : bool) (mx ex : Z)
    (lx : location) :
  (0 <= mx)%Z -> signed sx (binary_round_aux pr em sx mx ex lx).
Proof.
  intros H. unfold binary_round_aux.
  pose proof (@shr_fexp_nonneg pr em mx ex lx H) as H1.
  destruct (shr_fexp pr em mx ex lx) as [mrs' e']. simpl in H1.
  pose proof (@round_nearest_even_nonneg _ (loc_of_shr_record mrs') H1) as H2.
  pose proof (@shr_fexp_nonneg pr em _ e' loc_Exact H2) as H3.
  destruct (shr_fexp pr em _ e' loc_Exact) as [mrs'' e'']. simpl in H3.
  destruct (shr_m mrs'') as [|m|m]; [left; reflexivity| |lia].
  destruct (e'' <=? em - pr)%Z; [right; left; eauto | right; right; reflexivity].
Qed.

Lemma SFdiv_core_nonneg (pr em : Z) (m1 : positive) (e1 : Z) (m2 : positive)
    (e2 : Z) :
  (0 <= fst (fst (SFdiv_core_binary pr em (Zpos m1) e1 (Zpos m2) e2)))%Z.
Proof.
  unfold SFdiv_core_binary. cbv zeta.
  set (s := (_ - _ - Z.min _ _)%Z).
  set (m' := match s with
             | Z0 => Zpos m1
             | Zpos _ => Z.shiftl (Zpos m1) s
             | Zneg _ => 0%Z
             end).
  assert (Hm : (0 <= m')%Z).
  { unfold m'. destruct s; try lia. apply Z.shiftl_nonneg. lia. }
  pose proof (@Z_div_mod m' (Zpos m2) eq_refl) as Hd.
  destruct (Z.div_eucl m' (Zpos m2)) as [q r]. simpl.
  destruct Hd as [Hd Hr]. nia.
Qed.

Lemma SFdiv_finite_signed (x : spec_float) (sx : bool) (my : positive)
    (ey : Z) :
  signed sx x -> signed sx (SF64div x (S754_finite false my ey)).
Proof.
  unfold SF64div, SFdiv.
  intros [->|[(m & e & ->)| ->]].
  - left. now rewrite xorb_false_r.
  - rewrite xorb_false_r.
    pose proof (@SFdiv_core_nonneg prec emax m e my ey) as H.
    destruct (SFdiv_core_binary prec emax (Zpos m) e (Zpos my) ey)
      as [[mz ez] lz].
    simpl in H. now apply binary_round_aux_signed.
  - right. right. now rewrite xorb_false_r.
Qed.

Lemma signed_not_nan (s : bool) (f : spec_float) : signed s f -> f <> S754_nan.
Proof.
  intros [->|[(m & e & ->)| ->]]; discriminate.
Qed.

Lemma signed_nonneg (f : spec_float) :
  signed false f -> SFleb (S754_zero false) f = true.
Proof.
  intros [->|[(m & e & ->)| ->]]; reflexivity.
Qed.

(** Division by a positive finite number keeps a number a number, and a
    non-negative number non-negative. *)
Lemma div_by_positive (x scale : float) (m : positive) (e : Z) :
  Prim2SF scale = S754_finite false m e ->
  PrimFloat.is_nan x = false ->
  PrimFloat.is_nan (PrimFloat.div x scale) = false /\
  (PrimFloat.leb 0 x = true -> PrimFloat.leb 0 (PrimFloat.div x scale) = true).
Proof.
  intros Hs Hx. apply is_nan_spec in Hx.
  rewrite is_nan_spec, !FloatAxioms.leb_spec, FloatAxioms.div_spec, Hs.
  change (Prim2SF 0) with (S754_zero false).
  destruct (Prim2SF x) as [sx|sx| |sx mx ex] eqn:E.
  - split; [discriminate|]. intros _.
    unfold SF64div, SFdiv. now rewrite xorb_false_r.
  - assert (H : signed sx (SF64div (S754_infinity sx) (S754_finite false m e))).
    { apply SFdiv_finite_signed. right. now right. }
    split; [exact (signed_not_nan H)|].
    destruct sx; [discriminate|]. intros _. exact (signed_nonneg H).
  - now destruct Hx.
  - assert (H : signed sx (SF64div (S754_finite sx mx ex)
                             (S754_finite false m e))).
    { apply SFdiv_finite_signed. right. left. eauto. }
    split; [exact (signed_not_nan H)|].
    destruct sx; [discriminate|]. intros _. exact (signed_nonneg H).
Qed.

(** The sentiment expression in binary64: clamped from above, and not
    negative for a metric that is not negative. *)
Lemma sentiment64_bounds (x scale : float) :
  In scale [5; 100]%float ->
  PrimFloat.is_nan x = false ->
  PrimFloat.leb (sentiment64 x scale) 1 = true /\
  (PrimFloat.leb 0 x = true -> PrimFloat.leb 0 (sentiment64 x scale) = true).
Proof.
  intros Hscale Hx.
  assert (Hdiv : PrimFloat.is_nan (PrimFloat.div x scale) = false /\
                 (PrimFloat.leb 0 x = true ->
                  PrimFloat.leb 0 (PrimFloat.div x scale) = true)).
  { destruct Hscale as [<-|[<-|[]]];
      eapply div_by_positive; try exact Hx; vm_compute; reflexivity. }
  destruct Hdiv as [Hnan Hpos]. unfold sentiment64. cbv zeta.
  destruct (PrimFloat.ltb 1 (PrimFloat.div x scale)) eqn:E.
  - split; [reflexivity|]. intros _. reflexivity.
  - split; [|exact Hpos].
    apply float_ltb_false_leb; [reflexivity | exact Hnan | exact E].
Qed.

(** [min] and [max] in binary64, of a sample without NaN. *)
Lemma fold_min64_least (l : list float) (x : float) :
  no_nan (x :: l) = true ->
  let m := fold_left (fun best y => if PrimFloat.ltb y best then y else best) l x in
  In m (x :: l) /\ forall p, In p (x :: l) -> PrimFloat.leb m p = true.
Proof.
  revert x. induction l as [|y l IH]; intros x Hall; cbv zeta.
  - simpl in Hall. apply andb_true_iff in Hall. destruct Hall as [Hx _].
    apply negb_true_iff in Hx. simpl. split; [now left|].
    intros p [<-|[]]. now apply float_leb_refl.
  - unfold no_nan in Hall. simpl in Hall.
    apply andb_true_iff in Hall. destruct Hall as [Hx Hall].
    apply andb_true_iff in Hall. destruct Hall as [Hy Hall].
    pose proof Hx as Hx'. pose proof Hy as Hy'.
    apply negb_true_iff in Hx'. apply negb_true_iff in Hy'.
    simpl fold_left.
    destruct (PrimFloat.ltb y x) eqn:E.
    + destruct (IH y) as [Hin Hle].
      { unfold no_nan. simpl. now rewrite Hy, Hall. }
      split.
      * destruct Hin as [<-|Hin]; [right; now left | right; now right].
      * intros p [<-|[<-|Hp]].
        -- eapply float_leb_trans; [apply Hle; now left|].
           now apply float_ltb_leb.
        -- apply Hle. now left.
        -- apply Hle. now right.
    + destruct (IH x) as [Hin Hle].
      { unfold no_nan. simpl. now rewrite Hx, Hall. }
      split.
      * destruct Hin as [<-|Hin]; [now left | right; now right].
      * intros p [<-|[<-|Hp]].
        -- apply Hle. now left.
        -- eapply float_leb_trans; [apply Hle; now left|].
           now apply float_ltb_false_leb.
        -- apply Hle. now right.
Qed.

Lemma fold_max64_greatest (l : list float) (x : float) :
  no_nan (x :: l) = true ->
  let m := fold_left (fun best y => if PrimFloat.ltb best y then y else best) l x in
  In m (x :: l) /\ forall p, In p (x :: l) -> PrimFloat.leb p m = true.
Proof.
  revert x. induction l as [|y l IH]; intros x Hall; cbv zeta.
  - simpl in Hall. apply andb_true_iff in Hall. destruct Hall as [Hx _].
    apply negb_true_iff in Hx. simpl. split; [now left|].
    intros p [<-|[]]. now apply float_leb_refl.
  - unfold no_nan in Hall. simpl in Hall.
    apply andb_true_iff in Hall. destruct Hall as [Hx Hall].
    apply andb_true_iff in Hall. destruct Hall as [Hy Hall].
    pose proof Hx as Hx'. pose proof Hy as Hy'.
    apply negb_true_iff in Hx'. apply negb_true_iff in Hy'.
    simpl fold_left.
    destruct (PrimFloat.ltb x y) eqn:E.
    + destruct (IH y) as [Hin Hle].
      { unfold no_nan. simpl. now rewrite Hy, Hall. }
      split.
      * destruct Hin as [<-|Hin]; [right; now left | right; now right].
      * intros p [<-|[<-|Hp]].
        -- eapply float_leb_trans; [|apply Hle; now left].
           now apply float_ltb_leb.
        -- apply Hle. now left.
        -- apply Hle. now right.
    + destruct (IH x) as [Hin Hle].
      { unfold no_nan. simpl. now rewrite Hx, Hall. }
      split.
      * destruct Hin as [<-|Hin]; [now left | right; now right].
      * intros p [<-|[<-|Hp]].
        -- apply Hle. now left.
        -- eapply float_leb_trans; [|apply Hle; now left].
           now apply float_ltb_false_leb.
        -- apply Hle. now right.
Qed.

(** The bounds reported in binary64 for a sample without NaN are its
    least and its greatest element. *)
Lemma extremes64 (prices : list float) :
  prices <> [] -> no_nan prices = true ->
  exists lo hi,
    min64 prices = Some lo /\ max64 prices = Some hi /\
    In lo prices /\ In hi prices /\
    forall p, In p prices ->
      PrimFloat.leb lo p = true /\ PrimFloat.leb p hi = true.
Proof.
  destruct prices as [|x l]; [intros H; now destruct H|]. intros _ Hall.
  destruct (fold_min64_least l x Hall) as [Hin1 Hle1].
  destruct (fold_max64_greatest l x Hall) as [Hin2 Hle2].
  eexists _, _. split; [reflexivity|]. split; [reflexivity|].
  split; [exact Hin1|]. split; [exact Hin2|].
  intros p Hp. split; [now apply Hle1 | now apply Hle2].
Qed.

Lemma range64_ordered (prices : list float) (lo hi : float) :
  no_nan prices = true ->
  min64 prices = Some lo -> max64 prices = Some hi ->
  PrimFloat.leb lo hi = true.
Proof.
  intros Hall Hlo Hhi.
  destruct prices as [|x l]; [discriminate|].
  destruct (@extremes64 (x :: l)) as (lo' & hi' & E1 & E2 & Hin & _ & H);
    [discriminate | exact Hall |].
  rewrite Hlo in E1. injection E1 as <-.
  rewrite Hhi in E2. injection E2 as <-.
  now apply H.
Qed.

(** *** Comparisons and [min] of two floats *)

Lemma Qltb_true (x y : Q) : Qltb x y = true <-> x < y.
Proof.
  unfold Qltb. rewrite negb_true_iff. split.
  - intros E. apply Qnot_le_lt. intros Hle.
    apply Qle_bool_iff in Hle. congruence.
  - intros Hlt. destruct (Qle_bool y x) eqn:E; [|reflexivity].
    apply Qle_bool_iff in E. exfalso. exact (Qlt_not_le _ _ Hlt E).
Qed.

Lemma Qltb_false (x y : Q) : Qltb x y = false <-> y <= x.
Proof.
  unfold Qltb. rewrite negb_false_iff. apply Qle_bool_iff.
Qed.

Lemma py_min2_upper (a b : Q) : py_min2 a b <= b.
Proof.
  unfold py_min2. destruct (Qltb b a) eqn:E.
  - apply Qle_refl.
  - now apply Qltb_false.
Qed.

Lemma py_min2_lower (a b c : Q) : c <= a -> c <= b -> c <= py_min2 a b.
Proof.
  intros Ha Hb. unfold py_min2. now destruct (Qltb b a).
Qed.

(** *** [sum], [min] and [max] of a list *)

Lemma fold_plus_sum (P : list Q) (a : Q) :
  fold_left Qplus P a == a + sum_of P.
Proof.
  revert a. induction P as [|x P IH]; intros a; simpl.
  - now rewrite Qplus_0_r.
  - rewrite IH. now rewrite Qplus_assoc.
Qed.

Lemma py_sum_sum (P : list Q) : py_sum P == sum_of P.
Proof.
  unfold py_sum. rewrite fold_plus_sum. apply Qplus_0_l.
Qed.

Lemma fold_min_least (P : list Q) (x : Q) :
  is_least (x :: P)
    (fold_left (fun best y => if Qltb y best then y else best) P x).
Proof.
  revert x. induction P as [|a P IH]; intros x.
  - simpl. split; [now left|]. intros y [<-|[]]. apply Qle_refl.
  - simpl fold_left. destruct (IH (if Qltb a x then a else x)) as [Hin Hle].
    set (m := fold_left _ P _) in *. clearbody m.
    assert (Hm : m <= (if Qltb a x then a else x)) by (apply Hle; now left).
    destruct (Qltb a x) eqn:E.
    + apply Qltb_true in E. split.
      * destruct Hin as [<-|Hin]; [right; now left | right; now right].
      * intros y [<-|[<-|Hy]].
        -- eapply Qle_trans; [exact Hm | now apply Qlt_le_weak].
        -- exact Hm.
        -- apply Hle. now right.
    + apply Qltb_false in E. split.
      * destruct Hin as [<-|Hin]; [now left | right; now right].
      * intros y [<-|[<-|Hy]].
        -- exact Hm.
        -- eapply Qle_trans; [exact Hm | exact E].
        -- apply Hle. now right.
Qed.

Lemma fold_max_greatest (P : list Q) (x : Q) :
  is_greatest (x :: P)
    (fold_left (fun best y => if Qltb best y then y else best) P x).
Proof.
  revert x. induction P as [|a P IH]; intros x.
  - simpl. split; [now left|]. intros y [<-|[]]. apply Qle_refl.
  - simpl fold_left. destruct (IH (if Qltb x a then a else x)) as [Hin Hge].
    set (m := fold_left _ P _) in *. clearbody m.
    assert (Hm : (if Qltb x a then a else x) <= m) by (apply Hge; now left).
    destruct (Qltb x a) eqn:E.
    + apply Qltb_true in E. split.
      * destruct Hin as [<-|Hin]; [right; now left | right; now right].
      * intros y [<-|[<-|Hy]].
        -- eapply Qle_trans; [apply Qlt_le_weak; exact E | exact Hm].
        -- exact Hm.
        -- apply Hge. now right.
    + apply Qltb_false in E. split.
      * destruct Hin as [<-|Hin]; [now left | right; now right].
      * intros y [<-|[<-|Hy]].
        -- exact Hm.
        -- eapply Qle_trans; [exact E | exact Hm].
        -- apply Hge. now right.
Qed.

(** *** Division by a count *)

Lemma num_div_positive (a : Q) (n : Z) :
  (0 < n)%Z -> num_div a (inject_Z n) = Ok (a / inject_Z n).
Proof.
  intros Hn. unfold num_div.
  destruct (Qeq_bool (inject_Z n) 0) eqn:E; [|reflexivity].
  apply Qeq_bool_eq in E. unfold Qeq in E. simpl in E. lia.
Qed.

Lemma div_mul_count (a : Q) (n : Z) :
  (0 < n)%Z -> a / inject_Z n * inject_Z n == a.
Proof.
  intros Hn. field. intros E. unfold Qeq in E. simpl in E. lia.
Qed.

(** *** The price summary shared by the marketplace adapters *)

Lemma py_len_cons {A} (x : A) (l : list A) : (0 < py_len (x :: l))%Z.
Proof.
  unfold py_len. simpl List.length. lia.
Qed.

Lemma price_exprs_spec (P : list Q) :
  exists avg lo hi,
    avg_price_expr P = Ok avg /\
    price_range_expr P = Ok (PyDict [("min", lo); ("max", hi)]) /\
    (P = [] -> avg = PyInt 0 /\ lo = PyInt 0 /\ hi = PyInt 0) /\
    (P <> [] ->
     exists a l h,
       avg = PyFloat a /\ lo = PyFloat l /\ hi = PyFloat h /\
       is_mean P a /\ is_least P l /\ is_greatest P h).
Proof.
  destruct P as [|x P].
  - exists (PyInt 0), (PyInt 0), (PyInt 0). repeat split; try reflexivity.
    intros H. now destruct H.
  - pose proof (py_len_cons x P) as Hlen.
    eexists _, _, _. split; [|split; [|split]].
    + unfold avg_price_expr. rewrite (num_div_positive _ Hlen). reflexivity.
    + reflexivity.
    + discriminate.
    + intros _. eexists _, _, _. repeat split.
      * unfold is_mean. fold (py_len (x :: P)).
        rewrite (div_mul_count _ Hlen). apply py_sum_sum.
      * apply (fold_min_least P x).
      * apply (fold_min_least P x).
      * apply (fold_max_greatest P x).
      * apply (fold_max_greatest P x).
Qed.

Lemma least_le_greatest (P : list Q) (l h : Q) :
  is_least P l -> is_greatest P h -> l <= h.
Proof.
  intros [Hin _] [_ Hge]. now apply Hge.
Qed.

(** A reported bound of the range is a number, and the lower one is not
    above the upper one. *)
Lemma price_range_ordered (P : list Q) (lo hi : pyval) :
  price_range_expr P = Ok (PyDict [("min", lo); ("max", hi)]) ->
  exists a b, py_num lo = Some a /\ py_num hi = Some b /\ a <= b.
Proof.
  intros E.
  destruct (price_exprs_spec P) as (avg & lo' & hi' & _ & E' & Hnil & Hcons).
  rewrite E in E'. injection E' as <- <-.
  destruct P as [|x P].
  - destruct Hnil as (_ & -> & ->); [reflexivity|].
    exists 0, 0. repeat split. apply Qle_refl.
  - destruct Hcons as (a & l & h & _ & -> & -> & _ & Hl & Hh); [discriminate|].
    exists l, h. repeat split. exact (least_le_greatest Hl Hh).
Qed.

Lemma share_expr_total (n total : Z) :
  exists v,
    share_expr n total = Ok v /\
    ((0 < total)%Z -> v = PyFloat (inject_Z n / inject_Z total)) /\
    ((total <= 0)%Z -> v = PyInt 0).
Proof.
  unfold share_expr. destruct (0 <? total)%Z eqn:E.
  - apply Z.ltb_lt in E. rewrite (num_div_positive _ E).
    eexists. split; [reflexivity|]. split; [reflexivity|lia].
  - apply Z.ltb_ge in E. eexists. split; [reflexivity|].
    split; [lia|reflexivity].
Qed.


(** *** The payloads the adapters build *)

Lemma amazon_payload_shape (acc : AmazonAcc) :
  exists avg lo hi ar,
    amazon_payload acc =
      Ok (PyDict [("avg_price", avg);
                  ("price_range", PyDict [("min", lo); ("max", hi)]);
                  ("review_count", PyInt (total_reviews acc));
                  ("avg_rating", ar);
                  ("total_products", PyInt (product_count acc))]) /\
    avg_price_expr (a_prices acc) = Ok avg /\
    price_range_expr (a_prices acc) = Ok (PyDict [("min", lo); ("max", hi)]) /\
    ((0 < product_count acc)%Z ->
     ar = PyFloat (total_rating acc / inject_Z (product_count acc))) /\
    ((product_count acc <= 0)%Z -> ar = PyInt 0).
Proof.
  destruct (price_exprs_spec (a_prices acc)) as (avg & lo & hi & E1 & E2 & _).
  unfold amazon_payload. rewrite E1, E2. simpl res_bind.
  destruct (0 <? product_count acc)%Z eqn:E.
  - apply Z.ltb_lt in E. rewrite (num_div_positive _ E). simpl res_bind.
    eexists _, _, _, _. split; [reflexivity|]. repeat split; auto. lia.
  - apply Z.ltb_ge in E. simpl res_bind.
    eexists _, _, _, _. split; [reflexivity|]. repeat split; auto. lia.
Qed.

Lemma ebay_payload_shape (active : Z) (results completed : SearchResult)
    (P : list Q) :
  exists avg lo hi sold total,
    ebay_payload active results completed P =
      Ok (PyDict [("active_listings", PyInt active);
                  ("sold_last_month", PyInt sold);
                  ("avg_price", avg);
                  ("price_range", PyDict [("min", lo); ("max", hi)]);
                  ("total_results", PyInt total)]) /\
    avg_price_expr P = Ok avg /\
    price_range_expr P = Ok (PyDict [("min", lo); ("max", hi)]).
Proof.
  destruct (price_exprs_spec P) as (avg & lo & hi & E1 & E2 & _).
  unfold ebay_payload. rewrite E1, E2. simpl res_bind.
  eexists _, _, _, _, _. split; [reflexivity|]. split; reflexivity.
Qed.

Lemma etsy_payload_shape (total : Z) (acc : EtsyAcc) :
  exists avg lo hi dom intl,
    etsy_payload total acc =
      Ok (PyDict [("total_listings", PyInt total);
                  ("avg_price", avg);
                  ("price_range", PyDict [("min", lo); ("max", hi)]);
                  ("handmade_count", PyInt (handmade_count acc));
                  ("vintage_count", PyInt (vintage_count acc));
                  ("shop_location_distribution",
                   PyDict [("domestic", dom); ("international", intl)])]) /\
    avg_price_expr (e_prices acc) = Ok avg /\
    price_range_expr (e_prices acc) = Ok (PyDict [("min", lo); ("max", hi)]) /\
    share_expr (domestic acc) total = Ok dom /\
    share_expr (international acc) total = Ok intl.
Proof.
  destruct (price_exprs_spec (e_prices acc)) as (avg & lo & hi & E1 & E2 & _).
  destruct (share_expr_total (domestic acc) total) as (dom & E3 & _).
  destruct (share_expr_total (international acc) total) as (intl & E4 & _).
  unfold etsy_payload. rewrite E1, E2, E3, E4. simpl res_bind.
  eexists _, _, _, _, _. split; [reflexivity|]. repeat split; reflexivity.
Qed.

(** *** Running computations backwards from their result *)

Lemma res_bind_Ok {A B} (c : res A) (k : A -> res B) (b : B) :
  res_bind c k = Ok b -> exists a, c = Ok a /\ k a = Ok b.
Proof.
  destruct c as [a|e]; simpl; [|discriminate]. intros E. now exists a.
Qed.

Lemma bind_Ok {A B} (c : M A) (k : A -> M B) (b : B) (log log' : list Call) :
  bind c k log = (Ok b, log') ->
  exists a log1, c log = (Ok a, log1) /\ k a log1 = (Ok b, log').
Proof.
  unfold bind. destruct (c log) as [[a|e] log1]; [|discriminate].
  intros E. now exists a, log1.
Qed.

Lemma lift_Ok {A} (r : res A) (a : A) (log log' : list Call) :
  lift r log = (Ok a, log') -> r = Ok a /\ log' = log.
Proof.
  unfold lift. intros E. injection E as -> <-. now split.
Qed.

Lemma remote_Ok {A} (c : Call) (r : res A) (a : A) (log log' : list Call) :
  remote c r log = (Ok a, log') -> r = Ok a /\ log' = (log ++ [c])%list.
Proof.
  unfold remote. intros E. injection E as -> <-. now split.
Qed.

(** A handler that only re-raises never turns a failure into a result. *)
Lemma try_reraise_Ok {A} (c : M A) (wrap : exn -> exn) (a : A)
    (log log' : list Call) :
  try_M c (fun e => raise (wrap e)) log = (Ok a, log') ->
  c log = (Ok a, log').
Proof.
  unfold try_M, raise. destruct (c log) as [[a'|e] log1]; [|discriminate].
  intros E. injection E as -> ->. reflexivity.
Qed.

Ltac run_back H :=
  repeat match type of H with
  | try_M _ _ _ = (Ok _, _) => apply try_reraise_Ok in H
  | bind _ _ _ = (Ok _, _) =>
      let a := fresh "a" in
      let l := fresh "log" in
      let H1 := fresh "Run" in
      apply bind_Ok in H; destruct H as (a & l & H1 & H);
      first [ apply remote_Ok in H1; destruct H1 as [H1 ->]
            | apply lift_Ok in H1; destruct H1 as [H1 ->]
            | idtac ]
  | lift _ _ = (Ok _, _) =>
      let E := fresh "E" in
      apply lift_Ok in H; destruct H as [H E];
      try (rewrite E in *; clear E)
  end.

(** *** What a successful fetch went through *)

Lemma fetch_amazon_Ok (kw c : string) (log log' : list Call) (payload : pyval) :
  fetch_amazon_trends kw c log = (Ok payload, log') ->
  exists items acc,
    amazon_items w kw = Ok items /\
    amazon_loop items = Ok acc /\
    amazon_payload acc = Ok payload /\
    log' = (log ++ [amazon_search_items kw])%list.
Proof.
  intros H. unfold fetch_amazon_trends in H. run_back H.
  exists a, a0. auto.
Qed.

Lemma fetch_ebay_Ok (kw c : string) (log log' : list Call) (payload : pyval) :
  fetch_ebay_trends kw c log = (Ok payload, log') ->
  exists active results completed items P,
    item results = Some items /\
    for_each ebay_body items [] = Ok P /\
    ebay_payload active results completed P = Ok payload.
Proof.
  intros H. unfold fetch_ebay_trends in H. cbv zeta in H. run_back H.
  destruct (item a) as [items|] eqn:Eitem; [|discriminate].
  injection Run2 as <-.
  exists a0, a, a1, items, a3. auto.
Qed.

Lemma fetch_etsy_Ok (kw c : string) (log log' : list Call) (payload : pyval) :
  fetch_etsy_trends kw c log = (Ok payload, log') ->
  exists listings acc,
    etsy_listings w kw (if String.eqb c "" then None else Some c) = Ok listings /\
    etsy_loop c listings = Ok acc /\
    etsy_payload (py_len listings) acc = Ok payload.
Proof.
  intros H. unfold fetch_etsy_trends in H. cbv zeta in H. run_back H.
  exists a, a0. auto.
Qed.

Lemma google_payload_shape (kw : string) (df : DataFrame)
    (rq rt : list (string * Related)) (payload : pyval) :
  google_payload kw df rq rt = Ok payload ->
  exists interest queries topics,
    payload = PyDict [("interest_over_time", interest);
                      ("related_queries", queries);
                      ("related_topics", topics)].
Proof.
  unfold google_payload. intros H.
  repeat (apply res_bind_Ok in H; destruct H as (? & _ & H)).
  injection H as <-. now eexists _, _, _.
Qed.

Lemma fetch_google_Ok (kw c : string) (tf : option TimeFrame)
    (log log' : list Call) (payload : pyval) :
  fetch_google_trends kw c tf log = (Ok payload, log') ->
  exists interest queries topics,
    payload = PyDict [("interest_over_time", interest);
                      ("related_queries", queries);
                      ("related_topics", topics)].
Proof.
  intros H. unfold fetch_google_trends in H. cbv zeta in H. run_back H.
  exact (google_payload_shape _ _ _ _ H).
Qed.

(** *** What a successful [get_trends] went through *)

Lemma TrendData_init_Ok (p c k t : string) (td : pyval)
    (pr : option PriceRange.t) (sv : pyval) (s : Q) (resp : TrendData.t) :
  TrendData_init p c k t td pr sv s = Ok resp ->
  TrendData.trend_data resp = td /\
  TrendData.price_range resp = pr /\
  optional_int sv = Ok (TrendData.search_volume resp) /\
  TrendData.market_sentiment resp = Some s.
Proof.
  unfold TrendData_init.
  destruct td; try (destruct (optional_int sv); discriminate).
  destruct (optional_int sv) as [v|e]; [|discriminate].
  intros E. injection E as <-. simpl. auto.
Qed.

Lemma get_trends_Ok (request : TrendRequest.t) (log log' : list Call)
    (resp : TrendData.t) :
  get_trends request log = (Ok resp, log') ->
  exists payload s sv,
    fetched request log = (Ok payload, log') /\
    calculate_market_sentiment payload
      (PyStr (Platform_value (TrendRequest.platform request))) = Ok s /\
    price_range_of payload = Ok (TrendData.price_range resp) /\
    py_get payload "total_products" (PyInt 0) = Ok sv /\
    optional_int sv = Ok (TrendData.search_volume resp) /\
    TrendData.trend_data resp = payload /\
    TrendData.market_sentiment resp = Some s.
Proof.
  intros H. unfold get_trends in H. cbv zeta in H.
  apply try_reraise_Ok in H.
  apply bind_Ok in H. destruct H as (h & log0 & Hh & H).
  apply lift_Ok in Hh. destruct Hh as [Hh ->].
  apply bind_Ok in H. destruct H as (payload & log1 & Hfetch & H).
  run_back H.
  apply TrendData_init_Ok in H. destruct H as (Htd & Hpr & Hsv & Hs).
  exists payload, a, a1. subst a0. repeat split; auto.
  unfold fetched.
  destruct (TrendRequest.platform request); simpl in Hh, Hfetch;
    injection Hh as <-; exact Hfetch.
Qed.

(** *** The shape of an emitted payload *)

Lemma amazon_emits (kw c : string) (log log' : list Call) (payload : pyval) :
  fetch_amazon_trends kw c log = (Ok payload, log') ->
  exists P avg lo hi reviews ar n,
    payload =
      PyDict [("avg_price", avg);
              ("price_range", PyDict [("min", lo); ("max", hi)]);
              ("review_count", PyInt reviews);
              ("avg_rating", ar);
              ("total_products", PyInt n)] /\
    avg_price_expr P = Ok avg /\
    price_range_expr P = Ok (PyDict [("min", lo); ("max", hi)]).
Proof.
  intros H. apply fetch_amazon_Ok in H.
  destruct H as (items & acc & _ & _ & Hpay & _).
  destruct (amazon_payload_shape acc) as (avg & lo & hi & ar & E & E1 & E2 & _).
  rewrite E in Hpay. injection Hpay as <-.
  now exists (a_prices acc), avg, lo, hi, (total_reviews acc), ar,
    (product_count acc).
Qed.

Lemma ebay_emits (kw c : string) (log log' : list Call) (payload : pyval) :
  fetch_ebay_trends kw c log = (Ok payload, log') ->
  exists P avg lo hi active sold total,
    payload =
      PyDict [("active_listings", PyInt active);
              ("sold_last_month", PyInt sold);
              ("avg_price", avg);
              ("price_range", PyDict [("min", lo); ("max", hi)]);
              ("total_results", PyInt total)] /\
    avg_price_expr P = Ok avg /\
    price_range_expr P = Ok (PyDict [("min", lo); ("max", hi)]).
Proof.
  intros H. apply fetch_ebay_Ok in H.
  destruct H as (active & results & completed & items & P & _ & _ & Hpay).
  destruct (ebay_payload_shape active results completed P)
    as (avg & lo & hi & sold & total & E & E1 & E2).
  rewrite E in Hpay. injection Hpay as <-.
  now exists P, avg, lo, hi, active, sold, total.
Qed.

Lemma etsy_emits (kw c : string) (log log' : list Call) (payload : pyval) :
  fetch_etsy_trends kw c log = (Ok payload, log') ->
  exists P total avg lo hi hm vt dist,
    payload =
      PyDict [("total_listings", PyInt total);
              ("avg_price", avg);
              ("price_range", PyDict [("min", lo); ("max", hi)]);
              ("handmade_count", PyInt hm);
              ("vintage_count", PyInt vt);
              ("shop_location_distribution", dist)] /\
    avg_price_expr P = Ok avg /\
    price_range_expr P = Ok (PyDict [("min", lo); ("max", hi)]).
Proof.
  intros H. apply fetch_etsy_Ok in H.
  destruct H as (listings & acc & _ & _ & Hpay).
  destruct (etsy_payload_shape (py_len listings) acc)
    as (avg & lo & hi & dom & intl & E & E1 & E2 & _).
  rewrite E in Hpay. injection Hpay as <-.
  now eexists (e_prices acc), _, avg, lo, hi, _, _, _.
Qed.

(** The bounds an adapter reports convert to floats: each is the integer
    0 or a float. *)
Lemma price_range_converts (P : list Q) (lo hi : pyval) :
  price_range_expr P = Ok (PyDict [("min", lo); ("max", hi)]) ->
  exists a b, py_float lo = Ok a /\ py_float hi = Ok b.
Proof.
  destruct P as [|x P]; simpl; intros E; injection E as <- <-.
  - now exists 0, 0.
  - now eexists _, _.
Qed.

(** The envelope's price range of a payload that carries a range under
    ["price_range"]. *)
Lemma price_range_of_range (d : list (string * pyval)) (lo hi : pyval) (a b : Q) :
  assoc_get d "price_range" = Some (PyDict [("min", lo); ("max", hi)]) ->
  py_float lo = Ok a -> py_float hi = Ok b ->
  price_range_of (PyDict d) =
    Ok (Some {| PriceRange.min := a; PriceRange.max := b |}).
Proof.
  intros Hd Hlo Hhi. unfold price_range_of, py_contains, py_get.
  rewrite Hd. simpl. unfold PriceRange_init.
  now rewrite Hlo, Hhi.
Qed.

Lemma price_range_of_presence (td : pyval) (pr : option PriceRange.t) :
  price_range_of td = Ok pr ->
  (pr <> None <-> py_contains "price_range" td = Ok true).
Proof.
  unfold price_range_of.
  destruct (py_contains "price_range" td) as [[|]|e]; simpl; intros H.
  - repeat (apply res_bind_Ok in H; destruct H as (? & _ & H)).
    injection H as <-. split; [reflexivity | discriminate].
  - injection H as <-. split; [intros N; now destruct N | discriminate].
  - discriminate.
Qed.

(** *** Bounds of the sentiment rules *)

Lemma assoc_get_no_negative (d : list (string * pyval)) (k : string) (v : pyval) :
  forallb (fun kv => no_negative (snd kv)) d = true ->
  assoc_get d k = Some v -> no_negative v = true.
Proof.
  induction d as [|[k' v'] d IH]; simpl; [discriminate|].
  intros Hall. apply andb_true_iff in Hall. destruct Hall as [Hv Hd].
  destruct (String.eqb k' k).
  - intros E. now injection E as <-.
  - now apply IH.
Qed.

Lemma py_get_no_negative (td default v : pyval) (k : string) :
  no_negative td = true -> no_negative default = true ->
  py_get td k default = Ok v -> no_negative v = true.
Proof.
  intros Htd Hdef. destruct td; simpl; try discriminate.
  destruct (assoc_get d k) as [v'|] eqn:E; intros H; injection H as <-.
  - exact (assoc_get_no_negative _ _ Htd E).
  - exact Hdef.
Qed.

Lemma py_num_no_negative (v : pyval) (x : Q) :
  no_negative v = true -> py_num v = Some x -> 0 <= x.
Proof.
  destruct v; simpl; intros Hv E; try discriminate; injection E as <-.
  - destruct b; discriminate.
  - apply Z.leb_le in Hv. unfold Qle. simpl. lia.
  - now apply Qle_bool_iff.
Qed.

Lemma float_operand_num (v : pyval) (x : Q) :
  float_operand v = Ok x -> py_num v = Some x.
Proof.
  destruct v; simpl; try discriminate.
  - intros E. now injection E as <-.
  - unfold float_of_int. destruct (Z.abs z <? float_overflow)%Z; [|discriminate].
    intros E. now injection E as <-.
  - intros E. now injection E as <-.
Qed.

Lemma py_truediv_no_negative (v : pyval) (d r : Q) :
  0 < d -> no_negative v = true ->
  py_truediv v d = Ok r -> 0 <= r.
Proof.
  intros Hd Hv. unfold py_truediv.
  destruct (float_operand v) as [x|e] eqn:E; [|discriminate]. simpl.
  destruct (Qeq_bool d 0); [discriminate|]. intros H. injection H as <-.
  apply Qle_shift_div_l; [exact Hd|]. rewrite Qmult_0_l.
  exact (py_num_no_negative _ Hv (float_operand_num _ E)).
Qed.

(** Each source-specific rule has this form. *)
Lemma rule_bounds (td : pyval) (k1 k2 : string) (d s : Q) :
  0 < d ->
  (let! a := py_get td k1 (PyDict []) in
   let! b := py_get a k2 (PyInt 0) in
   let! r := py_truediv b d in
   Ok (py_min2 r 1)) = Ok s ->
  s <= 1 /\ (no_negative td = true -> 0 <= s).
Proof.
  intros Hd H.
  apply res_bind_Ok in H. destruct H as (a & Ha & H).
  apply res_bind_Ok in H. destruct H as (b & Hb & H).
  apply res_bind_Ok in H. destruct H as (r & Hr & H).
  injection H as <-. split; [apply py_min2_upper|].
  intros Htd. apply py_min2_lower; [|discriminate].
  eapply py_truediv_no_negative; [exact Hd| |exact Hr].
  eapply py_get_no_negative; [| |exact Hb]; [|reflexivity].
  eapply py_get_no_negative; [| |exact Ha]; [exact Htd|reflexivity].
Qed.

Lemma sentiment_rule_bounds (td platform : pyval) (s : Q) :
  sentiment_rule td platform = Ok s ->
  s <= 1 /\ (no_negative td = true -> 0 <= s).
Proof.
  unfold sentiment_rule.
  destruct (py_eq_str platform (Platform_value AMAZON));
    [apply rule_bounds; reflexivity|].
  destruct (py_eq_str platform (Platform_value EBAY));
    [apply rule_bounds; reflexivity|].
  destruct (py_eq_str platform (Platform_value GOOGLE));
    [apply rule_bounds; reflexivity|].
  intros H. injection H as <-. split; [|intros _]; discriminate.
Qed.

(** *** Sentiment scoring *)

(** C3, as amended.  For every trend data whose numbers are not NaN and
    every platform value the scoring function returns a sentiment of at
    most 1; the sentiment is in [0,1] whenever the trend data also holds
    no negative number.  (The rules clamp from above only; an [int] too
    large for a float is scored 0.5.)  The first part is the function on
    finite numbers; the second is the arithmetic of its three rules in
    binary64, for every float that is not NaN, the infinities included. *)
Theorem sentiment_at_most_one (trend_data platform : pyval) :
  (exists s,
     calculate_market_sentiment trend_data platform = Ok s /\
     s <= 1 /\
     (no_negative trend_data = true -> 0 <= s)) /\
  (forall x scale : float,
     In scale [5; 100]%float ->
     PrimFloat.is_nan x = false ->
     PrimFloat.leb (sentiment64 x scale) 1 = true /\
     (PrimFloat.leb 0 x = true ->
      PrimFloat.leb 0 (sentiment64 x scale) = true)).
Proof.
  split; [|exact sentiment64_bounds].
  unfold calculate_market_sentiment.
  destruct (sentiment_rule trend_data platform) as [s|e] eqn:E; simpl.
  - exists s. split; [reflexivity|]. exact (sentiment_rule_bounds _ _ E).
  - exists (1 # 2). split; [reflexivity|]. split; [|intros _]; discriminate.
Qed.

(** C3, counterexample.  A rating of -5 under the field the Amazon rule
    reads is scored -1, which is not in [0,1]. *)
Lemma negative_rating_sentiment :
  exists s,
    calculate_market_sentiment negative_rating (PyStr "amazon") = Ok s /\
    s == -1 /\
    ~ (0 <= s /\ s <= 1).
Proof.
  eexists. split; [vm_compute; reflexivity|]. split; [reflexivity|].
  intros [Hneg _]. unfold Qle in Hneg. simpl in Hneg. lia.
Qed.

(** C4.  Sentiment scoring is total: for every input it returns a value
    and never raises; when the source-specific rule raises, the value is
    exactly the neutral 0.5, and otherwise it is what the rule returned. *)
Theorem sentiment_never_raises (trend_data platform : pyval) :
  exists s,
    calculate_market_sentiment trend_data platform = Ok s /\
    (forall e, sentiment_rule trend_data platform = Raise e -> s = 1 # 2) /\
    (forall r, sentiment_rule trend_data platform = Ok r -> s = r).
Proof.
  unfold calculate_market_sentiment.
  destruct (sentiment_rule trend_data platform) as [r|e]; simpl.
  - exists r. split; [reflexivity|]. split; [discriminate|].
    intros r' E. now injection E.
  - exists (1 # 2). split; [reflexivity|]. split; [reflexivity|discriminate].
Qed.

(** The rule does raise on some inputs: trend data that is not a dict has
    no [get], a rating that is not a number cannot be divided. *)
Lemma scoring_failures_are_neutral :
  sentiment_rule PyNone (PyStr "amazon") = Raise AttributeError /\
  calculate_market_sentiment PyNone (PyStr "amazon") = Ok (1 # 2) /\
  sentiment_rule
    (PyDict [("review_metrics", PyDict [("avg_rating", PyStr "4.5")])])
    (PyStr "amazon") = Raise TypeError /\
  calculate_market_sentiment
    (PyDict [("review_metrics", PyDict [("avg_rating", PyStr "4.5")])])
    (PyStr "amazon") = Ok (1 # 2).
Proof.
  repeat split.
Qed.

(** *** Price statistics *)

(** C10, as amended.  Every payload emitted by the Amazon, the eBay or
    the Etsy adapter for a sample without NaN carries a price range whose
    bounds are numbers with min <= max (both are 0 for the empty sample).
    The first part is the adapters on finite prices; the second is their
    [min] and [max] in binary64, for every sample without NaN, the
    infinities included. *)
Theorem emitted_price_range_ordered (kw c : string) (log log' : list Call)
    (payload : pyval) :
  (fetch_amazon_trends kw c log = (Ok payload, log') \/
   fetch_ebay_trends kw c log = (Ok payload, log') \/
   fetch_etsy_trends kw c log = (Ok payload, log') ->
   exists lo hi a b,
     py_getitem payload "price_range" = Ok (PyDict [("min", lo); ("max", hi)]) /\
     py_num lo = Some a /\ py_num hi = Some b /\ a <= b) /\
  (forall (prices : list float) (lo hi : float),
     no_nan prices = true ->
     min64 prices = Some lo -> max64 prices = Some hi ->
     PrimFloat.leb lo hi = true).
Proof.
  split; [|exact range64_ordered].
  intros [H|[H|H]].
  - apply amazon_emits in H.
    destruct H as (P & avg & lo & hi & reviews & ar & n & -> & _ & E).
    destruct (price_range_ordered _ E) as (a & b & Ha & Hb & Hab).
    now exists lo, hi, a, b.
  - apply ebay_emits in H.
    destruct H as (P & avg & lo & hi & active & sold & total & -> & _ & E).
    destruct (price_range_ordered _ E) as (a & b & Ha & Hb & Hab).
    now exists lo, hi, a, b.
  - apply etsy_emits in H.
    destruct H as (P & total & avg & lo & hi & hm & vt & dist & -> & _ & E).
    destruct (price_range_ordered _ E) as (a & b & Ha & Hb & Hab).
    now exists lo, hi, a, b.
Qed.

(** *** Etsy: the shop-location shares *)

Lemma etsy_body_counts (c : string) (acc acc' : EtsyAcc) (listing : pyval) :
  etsy_body c acc listing = Ok acc' ->
  (domestic acc' + international acc' =
   domestic acc + international acc + 1)%Z.
Proof.
  unfold etsy_body. intros H.
  repeat (apply res_bind_Ok in H; destruct H as (? & _ & H)).
  injection H as <-. simpl.
  destruct (py_eq_str _ c); lia.
Qed.

Lemma etsy_for_each_counts (c : string) (listings : list pyval)
    (acc acc' : EtsyAcc) :
  for_each (etsy_body c) listings acc = Ok acc' ->
  (domestic acc' + international acc' =
   domestic acc + international acc + py_len listings)%Z.
Proof.
  revert acc. induction listings as [|x listings IH]; intros acc; simpl.
  - intros H. injection H as <-. unfold py_len. simpl. lia.
  - intros H. apply res_bind_Ok in H. destruct H as (acc1 & Hbody & H).
    apply IH in H. apply etsy_body_counts in Hbody.
    unfold py_len in *. simpl List.length. lia.
Qed.

Lemma shares_sum_to_one (d i n : Z) :
  (0 < n)%Z -> (d + i = n)%Z ->
  inject_Z d / inject_Z n + inject_Z i / inject_Z n == 1.
Proof.
  intros Hn Hsum. unfold Qdiv.
  rewrite <- Qmult_plus_distr_l, <- inject_Z_plus, Hsum.
  apply Qmult_inv_r. intros E. unfold Qeq in E. simpl in E. lia.
Qed.

(** X28.  In binary64 the rounded shares still add up to exactly [1.0],
    for every split of up to 100 listings, the limit the adapter asks
    for. *)
Lemma binary64_shares_sum_to_one (d n : nat) :
  (1 <= n <= 100)%nat -> (d <= n)%nat ->
  shares_exact (Z.of_nat d) (Z.of_nat n) = true.
Proof.
  intros Hn Hd.
  assert (H : all_splits 100 = true) by (vm_compute; reflexivity).
  unfold all_splits in H. rewrite forallb_forall in H.
  specialize (H n). rewrite forallb_forall in H.
  apply H; apply in_seq; lia.
Qed.

Lemma fetch_etsy_run (kw c : string) (log : list Call) (listings : list pyval)
    (acc : EtsyAcc) (payload : pyval) :
  let region := if String.eqb c "" then None else Some c in
  etsy_listings w kw region = Ok listings ->
  etsy_loop c listings = Ok acc ->
  etsy_payload (py_len listings) acc = Ok payload ->
  fetch_etsy_trends kw c log =
    (Ok payload,
     (log ++ [etsy_findAllListings kw 100 ["MainImage"; "Shop"] region])%list).
Proof.
  intros region Hsrc Hloop Hpay.
  unfold fetch_etsy_trends, try_M, bind, remote, lift. cbv zeta.
  fold region. now rewrite Hsrc, Hloop, Hpay.
Qed.

(** C8.  When the source answers a listing set and the loop over it goes
    through, the Etsy adapter returns a payload whose domestic and
    international shares sum to 1 if the set is not empty, and are both 0
    if it is empty. *)
Theorem etsy_shares (kw c : string) (log : list Call) (listings : list pyval)
    (acc : EtsyAcc) :
  etsy_listings w kw (if String.eqb c "" then None else Some c) = Ok listings ->
  etsy_loop c listings = Ok acc ->
  exists payload log' dom intl,
    fetch_etsy_trends kw c log = (Ok payload, log') /\
    shares_of payload = Ok (dom, intl) /\
    (listings <> [] ->
     exists d i, dom = PyFloat d /\ intl = PyFloat i /\ d + i == 1) /\
    (listings = [] -> dom = PyInt 0 /\ intl = PyInt 0).
Proof.
  intros Hsrc Hloop.
  destruct (etsy_payload_shape (py_len listings) acc)
    as (avg & lo & hi & dom & intl & E & _ & _ & Edom & Eintl).
  eexists _, _, dom, intl.
  split; [exact (fetch_etsy_run kw c log Hsrc Hloop E)|].
  split; [reflexivity|].
  destruct (share_expr_total (domestic acc) (py_len listings))
    as (dom' & E1 & Hpos1 & Hzero1).
  destruct (share_expr_total (international acc) (py_len listings))
    as (intl' & E2 & Hpos2 & Hzero2).
  rewrite Edom in E1. injection E1 as <-.
  rewrite Eintl in E2. injection E2 as <-.
  split.
  - intros Hne. destruct listings as [|x listings]; [now destruct Hne|].
    pose proof (py_len_cons x listings) as Hlen.
    eexists _, _. split; [exact (Hpos1 Hlen)|]. split; [exact (Hpos2 Hlen)|].
    apply shares_sum_to_one; [exact Hlen|].
    apply etsy_for_each_counts in Hloop. simpl in Hloop. lia.
  - intros ->. split; [apply Hzero1 | apply Hzero2]; unfold py_len; simpl; lia.
Qed.

(** An empty listing set is not an error. *)
Lemma etsy_empty_listing_set (kw c : string) (log : list Call) :
  etsy_listings w kw (if String.eqb c "" then None else Some c) = Ok [] ->
  exists payload log',
    fetch_etsy_trends kw c log = (Ok payload, log') /\
    shares_of payload = Ok (PyInt 0, PyInt 0).
Proof.
  intros Hsrc. eexists _, _. split.
  - eapply fetch_etsy_run; [exact Hsrc | reflexivity | vm_compute; reflexivity].
  - reflexivity.
Qed.

(** *** The response envelope *)

(** Every successful request is scored by its source-specific rule, which
    finds none of the fields it reads in the adapter's payload and so
    divides the default 0. *)
Lemma success_sentiment (request : TrendRequest.t) (log log' : list Call)
    (resp : TrendData.t) :
  get_trends request log = (Ok resp, log') ->
  exists s,
    TrendData.market_sentiment resp = Some s /\
    s == 0 /\
    sentiment_rule (TrendData.trend_data resp)
      (PyStr (Platform_value (TrendRequest.platform request))) = Ok s /\
    forall field,
      In field ["review_metrics"; "condition_distribution"; "trend_summary"] ->
      py_contains field (TrendData.trend_data resp) = Ok false.
Proof.
  intros H. apply get_trends_Ok in H.
  destruct H as (payload & s & sv & Hfetch & Hs & _ & _ & _ & -> & ->).
  exists s. split; [reflexivity|].
  unfold fetched in Hfetch.
  destruct (TrendRequest.platform request).
  - apply amazon_emits in Hfetch.
    destruct Hfetch as (P & avg & lo & hi & reviews & ar & n & -> & _).
    vm_compute in Hs. injection Hs as <-.
    repeat split. intros field [<-|[<-|[<-|[]]]]; reflexivity.
  - apply ebay_emits in Hfetch.
    destruct Hfetch as (P & avg & lo & hi & active & sold & total & -> & _).
    vm_compute in Hs. injection Hs as <-.
    repeat split. intros field [<-|[<-|[<-|[]]]]; reflexivity.
  - apply fetch_google_Ok in Hfetch.
    destruct Hfetch as (interest & queries & topics & ->).
    vm_compute in Hs. injection Hs as <-.
    repeat split. intros field [<-|[<-|[<-|[]]]]; reflexivity.
Qed.

(** C2, as amended.  For every successful eBay or Google request the
    sentiment is 0: the payload has neither a ["condition_distribution"]
    nor a ["trend_summary"] entry, the source-specific rule runs without
    raising and divides the default 0 it reads instead; the neutral 0.5 is
    not produced. *)
Theorem ebay_google_sentiment_zero (request : TrendRequest.t)
    (log log' : list Call) (resp : TrendData.t) :
  TrendRequest.platform request = EBAY \/
  TrendRequest.platform request = GOOGLE ->
  get_trends request log = (Ok resp, log') ->
  exists s,
    TrendData.market_sentiment resp = Some s /\
    s == 0 /\
    sentiment_rule (TrendData.trend_data resp)
      (PyStr (Platform_value (TrendRequest.platform request))) = Ok s /\
    py_contains "condition_distribution" (TrendData.trend_data resp) = Ok false /\
    py_contains "trend_summary" (TrendData.trend_data resp) = Ok false.
Proof.
  intros _ H.
  destruct (success_sentiment _ _ H) as (s & Hs & Hzero & Hrule & Habsent).
  exists s. repeat split; try assumption.
  - apply Habsent. right. now left.
  - apply Habsent. right. right. now left.
Qed.

(** C5, as amended.  In every assembled response the price range is
    present iff the adapter's payload has a ["price_range"] entry; every
    Amazon and every eBay payload has one, and no Google payload has
    one. *)
Theorem price_range_presence (request : TrendRequest.t) (log log' : list Call)
    (resp : TrendData.t) :
  get_trends request log = (Ok resp, log') ->
  (TrendData.price_range resp <> None <->
   py_contains "price_range" (TrendData.trend_data resp) = Ok true) /\
  (TrendRequest.platform request <> GOOGLE ->
   exists r, TrendData.price_range resp = Some r) /\
  (TrendRequest.platform request = GOOGLE ->
   TrendData.price_range resp = None).
Proof.
  intros H. apply get_trends_Ok in H.
  destruct H as (payload & s & sv & Hfetch & _ & Hpr & _ & _ & -> & _).
  split; [exact (price_range_of_presence _ Hpr)|].
  unfold fetched in Hfetch.
  destruct (TrendRequest.platform request).
  - apply amazon_emits in Hfetch.
    destruct Hfetch as (P & avg & lo & hi & reviews & ar & n & -> & _ & E).
    destruct (price_range_converts _ E) as (a & b & Ha & Hb).
    erewrite price_range_of_range in Hpr; [|reflexivity|exact Ha|exact Hb].
    injection Hpr as <-.
    split; [|discriminate]. intros _. eexists. reflexivity.
  - apply ebay_emits in Hfetch.
    destruct Hfetch as (P & avg & lo & hi & active & sold & total & -> & _ & E).
    destruct (price_range_converts _ E) as (a & b & Ha & Hb).
    erewrite price_range_of_range in Hpr; [|reflexivity|exact Ha|exact Hb].
    injection Hpr as <-.
    split; [|discriminate]. intros _. eexists. reflexivity.
  - apply fetch_google_Ok in Hfetch.
    destruct Hfetch as (interest & queries & topics & ->).
    change (Ok None = Ok (TrendData.price_range resp)) in Hpr.
    injection Hpr as <-.
    split; [intros N; now destruct N | reflexivity].
Qed.

Lemma py_get_default (td sv : pyval) (k : string) (default : pyval) :
  py_get td k default = Ok sv ->
  (forall v, py_getitem td k = Ok v -> sv = v) /\
  (py_contains k td = Ok false -> sv = default).
Proof.
  destruct td; simpl; try discriminate.
  destruct (assoc_get d k) as [v'|]; intros H; injection H as <-.
  - split; [intros v E; now injection E | discriminate].
  - split; [discriminate | reflexivity].
Qed.

(** C6, as amended.  In every assembled response the search volume is
    taken from the payload's ["total_products"] entry when there is one,
    and is 0 (not absent) when there is none, as for every eBay payload. *)
Theorem search_volume_source (request : TrendRequest.t) (log log' : list Call)
    (resp : TrendData.t) :
  get_trends request log = (Ok resp, log') ->
  (forall v,
     py_getitem (TrendData.trend_data resp) "total_products" = Ok v ->
     optional_int v = Ok (TrendData.search_volume resp)) /\
  (py_contains "total_products" (TrendData.trend_data resp) = Ok false ->
   TrendData.search_volume resp = Some 0%Z) /\
  (TrendRequest.platform request = EBAY ->
   py_contains "total_products" (TrendData.trend_data resp) = Ok false).
Proof.
  intros H. apply get_trends_Ok in H.
  destruct H as (payload & s & sv & Hfetch & _ & _ & Hget & Hsv & -> & _).
  destruct (py_get_default _ _ _ Hget) as [Hpresent Habsent].
  split; [|split].
  - intros v Hv. now rewrite <- (Hpresent v Hv).
  - intros Hno. rewrite (Habsent Hno) in Hsv. simpl in Hsv.
    now injection Hsv as <-.
  - intros Hp. unfold fetched in Hfetch. rewrite Hp in Hfetch.
    apply ebay_emits in Hfetch.
    destruct Hfetch as (P & avg & lo & hi & active & sold & total & -> & _).
    reflexivity.
Qed.

(** *** Dispatch *)

Lemma every_platform_registered (p : Platform) : handlers_get handlers p <> None.
Proof.
  destruct p; discriminate.
Qed.

(** C9.  A request whose source value has no handler registered in the
    dispatch table is rejected as invalid input, naming the field, and no
    remote call is made: the log of calls is left as it was. *)
Theorem unregistered_source_rejected (raw : RawRequest) (log : list Call) :
  registered_handler (raw_platform raw) = None ->
  exists fields,
    post_trends raw log = (Raise (ValidationError fields), log) /\
    In "platform" fields.
Proof.
  unfold registered_handler. intros Hnone.
  destruct (Platform_of_value (raw_platform raw)) as [p|] eqn:E.
  - now destruct (every_platform_registered p).
  - unfold post_trends, TrendRequest_validate. rewrite E.
    eexists. split; [reflexivity|]. now left.
Qed.

(** *** Amazon: what the loop collects *)

Lemma amazon_for_each_spec (items : list Item) (acc acc' : AmazonAcc) :
  for_each amazon_body items acc = Ok acc' ->
  a_prices acc' = (a_prices acc ++ offered_prices items)%list /\
  total_reviews acc' = (total_reviews acc + review_total items)%Z /\
  total_rating acc' == total_rating acc + sum_of (rated_values items) /\
  product_count acc' = (product_count acc + py_len items)%Z /\
  forallb well_offered items = true.
Proof.
  revert acc. induction items as [|it items IH]; intros acc; simpl for_each.
  - intros H. injection H as <-. unfold py_len, review_total. simpl.
    rewrite app_nil_r, Qplus_0_r. repeat split; try reflexivity; lia.
  - intros H. apply res_bind_Ok in H. destruct H as (acc1 & Hbody & H).
    apply IH in H. destruct H as (Hp & Hr & Ht & Hc & Hw).
    unfold amazon_body in Hbody.
    apply res_bind_Ok in Hbody. destruct Hbody as (prices & Hprices & Hbody).
    unfold offered_prices, rated_values, review_total, well_offered, py_len in *.
    simpl flat_map. simpl forallb. simpl List.length.
    destruct (offers it) as [o|]; [destruct (listings o) as [|l0 ls]|];
      try discriminate; injection Hprices as <-;
      destruct (rating it) as [r|]; simpl in Hbody; injection Hbody as <-;
      simpl in Hp, Hr, Ht, Hc; rewrite Hp, Hr, Ht, Hc; simpl;
      rewrite <- ?app_assoc; simpl;
      repeat split; try reflexivity; try assumption; try lia;
      try (rewrite Qplus_assoc; reflexivity).
Qed.

Lemma amazon_for_each_fails (items : list Item) (acc : AmazonAcc) :
  forallb well_offered items = false ->
  for_each amazon_body items acc = Raise IndexError.
Proof.
  revert acc. induction items as [|it items IH]; intros acc; simpl.
  - discriminate.
  - intros H. unfold amazon_body, well_offered in *.
    destruct (offers it) as [o|]; [destruct (listings o) as [|l0 ls]|];
      simpl in *; try reflexivity;
      destruct (rating it); simpl; apply IH; exact H.
Qed.

Lemma amazon_loop_spec (items : list Item) (acc : AmazonAcc) :
  amazon_loop items = Ok acc ->
  a_prices acc = offered_prices (firstn 20 items) /\
  total_reviews acc = review_total (firstn 20 items) /\
  total_rating acc == sum_of (rated_values (firstn 20 items)) /\
  product_count acc = py_len (firstn 20 items) /\
  forallb well_offered (firstn 20 items) = true.
Proof.
  unfold amazon_loop. intros H. apply amazon_for_each_spec in H.
  cbn [a_prices total_reviews total_rating product_count] in H.
  destruct H as (Hp & Hr & Ht & Hc & Hw).
  rewrite Qplus_0_l in Ht. rewrite Z.add_0_l in Hr, Hc.
  now repeat split.
Qed.

Lemma py_len_firstn {A} (n : nat) (l : list A) :
  py_len (firstn n l) = Z.min (py_len l) (Z.of_nat n).
Proof.
  unfold py_len. rewrite length_firstn. lia.
Qed.

Lemma fetch_amazon_raises (kw c : string) (log : list Call)
    (items : list Item) (e : exn) :
  amazon_items w kw = Ok items ->
  amazon_loop items = Raise e ->
  fetch_amazon_trends kw c log =
    (Raise (Exception_ "Amazon API error" e),
     (log ++ [amazon_search_items kw])%list).
Proof.
  intros Hsrc Hloop.
  unfold fetch_amazon_trends, try_M, bind, remote, lift, raise.
  now rewrite Hsrc, Hloop.
Qed.

(** What a successful Amazon fetch reports, in terms of the items the
    source returned. *)
Lemma fetch_amazon_report (kw c : string) (log log' : list Call)
    (payload : pyval) :
  fetch_amazon_trends kw c log = (Ok payload, log') ->
  exists items acc avg lo hi ar,
    amazon_items w kw = Ok items /\
    amazon_loop items = Ok acc /\
    payload =
      PyDict [("avg_price", avg);
              ("price_range", PyDict [("min", lo); ("max", hi)]);
              ("review_count", PyInt (total_reviews acc));
              ("avg_rating", ar);
              ("total_products", PyInt (product_count acc))] /\
    avg_price_expr (a_prices acc) = Ok avg /\
    price_range_expr (a_prices acc) = Ok (PyDict [("min", lo); ("max", hi)]) /\
    ((0 < product_count acc)%Z ->
     ar = PyFloat (total_rating acc / inject_Z (product_count acc))) /\
    ((product_count acc <= 0)%Z -> ar = PyInt 0) /\
    log' = (log ++ [amazon_search_items kw])%list.
Proof.
  intros H. apply fetch_amazon_Ok in H.
  destruct H as (items & acc & Hsrc & Hloop & Hpay & Hlog).
  destruct (amazon_payload_shape acc)
    as (avg & lo & hi & ar & E & E1 & E2 & Hpos & Hzero).
  rewrite E in Hpay. injection Hpay as <-.
  exists items, acc, avg, lo, hi, ar. repeat split; assumption.
Qed.

(** X1.  A successful Amazon fetch makes exactly one remote call and
    reports as [total_products] the number of items it examined: all the
    items returned, but never more than 20. *)
Theorem amazon_examines_at_most_twenty (kw c : string) (log log' : list Call)
    (payload : pyval) :
  fetch_amazon_trends kw c log = (Ok payload, log') ->
  exists items,
    amazon_items w kw = Ok items /\
    py_getitem payload "total_products" =
      Ok (PyInt (Z.min (py_len items) 20)) /\
    log' = (log ++ [amazon_search_items kw])%list.
Proof.
  intros H. apply fetch_amazon_report in H.
  destruct H as (items & acc & avg & lo & hi & ar & Hsrc & Hloop & -> & _ & _
                 & _ & _ & Hlog).
  apply amazon_loop_spec in Hloop.
  destruct Hloop as (_ & _ & _ & Hcount & _).
  rewrite py_len_firstn in Hcount.
  exists items. split; [exact Hsrc|]. split; [|exact Hlog].
  change (Ok (PyInt (product_count acc)) = Ok (PyInt (Z.min (py_len items) 20))).
  now rewrite Hcount.
Qed.

(** X2.  The average rating a successful Amazon fetch reports is the sum
    of the ratings of the rated items divided by the number of all items
    examined, rated or not; the review count is the sum of their review
    counts; with no item examined the average is the integer 0. *)
Theorem amazon_rating_over_examined (kw c : string) (log log' : list Call)
    (payload : pyval) :
  fetch_amazon_trends kw c log = (Ok payload, log') ->
  exists items ar,
    let examined := firstn 20 items in
    amazon_items w kw = Ok items /\
    py_getitem payload "review_count" = Ok (PyInt (review_total examined)) /\
    py_getitem payload "avg_rating" = Ok ar /\
    (examined = [] -> ar = PyInt 0) /\
    (examined <> [] ->
     exists a,
       ar = PyFloat a /\
       a * inject_Z (py_len examined) == sum_of (rated_values examined)).
Proof.
  intros H. apply fetch_amazon_report in H.
  destruct H as (items & acc & avg & lo & hi & ar & Hsrc & Hloop & -> & _ & _
                 & Hpos & Hzero & _).
  apply amazon_loop_spec in Hloop.
  destruct Hloop as (_ & Hrev & Hrat & Hcount & _).
  exists items, ar. cbv zeta.
  split; [exact Hsrc|].
  split; [change (Ok (PyInt (total_reviews acc)) =
                  Ok (PyInt (review_total (firstn 20 items))));
          now rewrite Hrev|].
  split; [reflexivity|].
  destruct (firstn 20 items) as [|it rest] eqn:E.
  - split; [|intros N; now destruct N]. intros _. apply Hzero.
    rewrite Hcount. unfold py_len. simpl. lia.
  - split; [discriminate|]. intros _.
    pose proof (py_len_cons it rest) as Hlen.
    rewrite <- Hcount in Hlen. eexists. split; [exact (Hpos Hlen)|].
    rewrite <- Hcount, (div_mul_count _ Hlen). exact Hrat.
Qed.


(** X4.  When one of the first 20 items has an offer with no listing, the
    Amazon fetch fails as a whole: it raises the Amazon error wrapping an
    [IndexError], after its one remote call. *)
Theorem amazon_offer_without_listing_fails (kw c : string) (log : list Call)
    (items : list Item) :
  amazon_items w kw = Ok items ->
  forallb well_offered (firstn 20 items) = false ->
  fetch_amazon_trends kw c log =
    (Raise (Exception_ "Amazon API error" IndexError),
     (log ++ [amazon_search_items kw])%list).
Proof.
  intros Hsrc Hbad. apply (fetch_amazon_raises kw c log Hsrc).
  unfold amazon_loop. now apply amazon_for_each_fails.
Qed.

(** *** [get_trends] as fetch, then assembly *)

Lemma get_trends_step (request : TrendRequest.t) (log : list Call) :
  get_trends request log =
    match fetched request log with
    | (Ok payload, log1) =>
        match assemble request payload with
        | Ok resp => (Ok resp, log1)
        | Raise e =>
            (Raise (HTTPException 500 "Error processing request" (Some e)), log1)
        end
    | (Raise e, log1) =>
        (Raise (HTTPException 500 "Error processing request" (Some e)), log1)
    end.
Proof.
  unfold get_trends, fetched, assemble. cbv zeta.
  destruct (TrendRequest.platform request); simpl handlers_get;
    simpl Platform_eqb; cbv iota; unfold call2, call3;
    unfold try_M at 1; unfold bind at 1; unfold lift at 1;
    unfold bind at 1.
  all: match goal with
       | |- context [match ?c with _ => _ end] =>
           destruct c as [[payload|e] log1]; [|reflexivity]
       end.
  all: unfold bind, lift, raise;
       destruct (calculate_market_sentiment payload _); simpl; [|reflexivity];
       destruct (price_range_of payload); simpl; [|reflexivity];
       destruct (py_get payload "total_products" (PyInt 0)); simpl;
       [|reflexivity];
       destruct (TrendData_init _ _ _ _ _ _ _ _); reflexivity.
Qed.

Lemma wrapped_failure {A} (c : M A) (ctx : string) (log log' : list Call)
    (e : exn) :
  try_M c (fun e => raise (Exception_ ctx e)) log = (Raise e, log') ->
  exists cause, e = Exception_ ctx cause /\ c log = (Raise cause, log').
Proof.
  unfold try_M, raise. destruct (c log) as [[a|cause] log1]; [discriminate|].
  intros H. injection H as <- <-. now exists cause.
Qed.

Lemma fetched_failure (request : TrendRequest.t) (log log' : list Call)
    (e : exn) :
  fetched request log = (Raise e, log') ->
  exists cause,
    e = Exception_ (source_context (TrendRequest.platform request)) cause.
Proof.
  unfold fetched.
  destruct (TrendRequest.platform request); intros H;
    apply wrapped_failure in H; destruct H as (cause & -> & _);
    now exists cause.
Qed.

Lemma calculate_total (td platform : pyval) :
  exists s, calculate_market_sentiment td platform = Ok s.
Proof.
  unfold calculate_market_sentiment.
  destruct (sentiment_rule td platform); simpl; eauto.
Qed.

Lemma assemble_dict (request : TrendRequest.t) (d : list (string * pyval))
    (pr : option PriceRange.t) (n : Z) :
  price_range_of (PyDict d) = Ok pr ->
  py_get (PyDict d) "total_products" (PyInt 0) = Ok (PyInt n) ->
  exists resp,
    assemble request (PyDict d) = Ok resp /\
    TrendData.trend_data resp = PyDict d /\
    TrendData.platform resp = Platform_value (TrendRequest.platform request) /\
    TrendData.country resp = TrendRequest.country request /\
    TrendData.keyword resp = TrendRequest.keyword request /\
    TrendData.timestamp resp = now_isoformat w /\
    TrendData.error resp = None.
Proof.
  intros Hpr Hsv. unfold assemble. cbv zeta.
  destruct (calculate_total (PyDict d)
              (PyStr (Platform_value (TrendRequest.platform request))))
    as (s & ->).
  rewrite Hpr, Hsv. simpl. eexists. split; [reflexivity|]. now repeat split.
Qed.

Lemma assemble_fetched (request : TrendRequest.t) (log log' : list Call)
    (payload : pyval) :
  fetched request log = (Ok payload, log') ->
  exists resp,
    assemble request payload = Ok resp /\
    TrendData.trend_data resp = payload /\
    TrendData.platform resp = Platform_value (TrendRequest.platform request) /\
    TrendData.country resp = TrendRequest.country request /\
    TrendData.keyword resp = TrendRequest.keyword request /\
    TrendData.timestamp resp = now_isoformat w /\
    TrendData.error resp = None.
Proof.
  unfold fetched. destruct (TrendRequest.platform request) eqn:Ep; intros H.
  - apply amazon_emits in H.
    destruct H as (P & avg & lo & hi & reviews & ar & n & -> & _ & E).
    destruct (price_range_converts _ E) as (a & b & Ha & Hb).
    rewrite <- Ep. eapply assemble_dict; [|reflexivity].
    eapply price_range_of_range; [reflexivity | exact Ha | exact Hb].
  - apply ebay_emits in H.
    destruct H as (P & avg & lo & hi & active & sold & total & -> & _ & E).
    destruct (price_range_converts _ E) as (a & b & Ha & Hb).
    rewrite <- Ep. eapply assemble_dict; [|reflexivity].
    eapply price_range_of_range; [reflexivity | exact Ha | exact Hb].
  - apply fetch_google_Ok in H.
    destruct H as (interest & queries & topics & ->).
    rewrite <- Ep. eapply assemble_dict; reflexivity.
Qed.

(** X5.  Once the adapter has returned a payload, [get_trends] cannot
    fail: scoring and the construction of the response go through, and the
    response carries that payload, the request's platform value, country
    and keyword, the processing time, and no error text. *)
Theorem assembly_never_fails (request : TrendRequest.t) (log log' : list Call)
    (payload : pyval) :
  fetched request log = (Ok payload, log') ->
  exists resp,
    get_trends request log = (Ok resp, log') /\
    TrendData.trend_data resp = payload /\
    TrendData.platform resp = Platform_value (TrendRequest.platform request) /\
    TrendData.country resp = TrendRequest.country request /\
    TrendData.keyword resp = TrendRequest.keyword request /\
    TrendData.timestamp resp = now_isoformat w /\
    TrendData.error resp = None.
Proof.
  intros H. destruct (assemble_fetched _ _ H) as (resp & Ha & Hrest).
  exists resp. split; [|exact Hrest].
  now rewrite get_trends_step, H, Ha.
Qed.

(** X6.  Every failure of [get_trends] is a failure of the platform's
    adapter: it is reported with status 500, never 400, and wraps the
    error the adapter re-raised under its own source name. *)
Theorem get_trends_failure_is_source_failure (request : TrendRequest.t)
    (log log' : list Call) (e : exn) :
  get_trends request log = (Raise e, log') ->
  exists cause,
    e = HTTPException 500 "Error processing request"
          (Some (Exception_ (source_context (TrendRequest.platform request))
                   cause)) /\
    fetched request log =
      (Raise (Exception_ (source_context (TrendRequest.platform request))
                cause), log').
Proof.
  rewrite get_trends_step.
  destruct (fetched request log) as [[payload|e0] log1] eqn:Hf.
  - destruct (assemble_fetched _ _ Hf) as (resp & -> & _). discriminate.
  - intros H. injection H as <- <-.
    destruct (fetched_failure _ _ Hf) as (cause & ->). now exists cause.
Qed.

(** *** eBay: the run of the adapter, step by step *)

Lemma fetch_ebay_unfold (kw c : string) (log : list Call) :
  let call1 := ebay_execute "findItemsAdvanced" (active_request kw c) in
  let call2 := ebay_execute "findCompletedItems" (sold_request kw) in
  let failed e := Raise (Exception_ "eBay API error" e) in
  fetch_ebay_trends kw c log =
    match ebay_reply w "findItemsAdvanced" (active_request kw c) with
    | Raise e => (failed e, log ++ [call1])
    | Ok results =>
        match py_int (totalEntries results) with
        | Raise e => (failed e, log ++ [call1])
        | Ok active =>
            match ebay_reply w "findCompletedItems" (sold_request kw) with
            | Raise e => (failed e, log ++ [call1; call2])
            | Ok completed =>
                match item results with
                | None => (failed AttributeError, log ++ [call1; call2])
                | Some items =>
                    match for_each ebay_body items [] with
                    | Raise e => (failed e, log ++ [call1; call2])
                    | Ok P =>
                        match ebay_payload active results completed P with
                        | Ok payload => (Ok payload, log ++ [call1; call2])
                        | Raise e => (failed e, log ++ [call1; call2])
                        end
                    end
                end
            end
        end
    end%list.
Proof.
  cbv zeta. unfold fetch_ebay_trends, active_request, sold_request.
  unfold try_M, bind, remote, lift, raise. cbv zeta. simpl keywords.
  simpl entriesPerPage. simpl sortOrder.
  destruct (ebay_reply w "findItemsAdvanced" _) as [results|e]; [|reflexivity].
  destruct (py_int (totalEntries results)) as [active|e]; [|reflexivity].
  rewrite <- app_assoc. simpl app.
  destruct (ebay_reply w "findCompletedItems" _) as [completed|e];
    [|reflexivity].
  destruct (item results) as [items|]; [|reflexivity].
  destruct (for_each ebay_body items []) as [P|e]; [|reflexivity].
  destruct (ebay_payload active results completed P); reflexivity.
Qed.


(** What a successful eBay fetch went through and reports. *)
Lemma fetch_ebay_report (kw c : string) (log log' : list Call)
    (payload : pyval) :
  fetch_ebay_trends kw c log = (Ok payload, log') ->
  exists results completed active items P avg lo hi,
    ebay_reply w "findItemsAdvanced" (active_request kw c) = Ok results /\
    py_int (totalEntries results) = Ok active /\
    ebay_reply w "findCompletedItems" (sold_request kw) = Ok completed /\
    item results = Some items /\
    for_each ebay_body items [] = Ok P /\
    avg_price_expr P = Ok avg /\
    price_range_expr P = Ok (PyDict [("min", lo); ("max", hi)]) /\
    payload =
      PyDict [("active_listings", PyInt active);
              ("sold_last_month",
               PyInt (match item completed with
                      | Some sold => py_len sold
                      | None => 0%Z
                      end));
              ("avg_price", avg);
              ("price_range", PyDict [("min", lo); ("max", hi)]);
              ("total_results", PyInt (py_len items))] /\
    log' =
      (log ++ [ebay_execute "findItemsAdvanced" (active_request kw c);
               ebay_execute "findCompletedItems" (sold_request kw)])%list.
Proof.
  rewrite fetch_ebay_unfold. cbv zeta.
  destruct (ebay_reply w "findItemsAdvanced" _) as [results|e] eqn:E1;
    [|discriminate].
  destruct (py_int (totalEntries results)) as [active|e] eqn:E2;
    [|discriminate].
  destruct (ebay_reply w "findCompletedItems" _) as [completed|e] eqn:E3;
    [|discriminate].
  destruct (item results) as [items|] eqn:E4; [|discriminate].
  destruct (for_each ebay_body items []) as [P|e] eqn:E5; [|discriminate].
  destruct (price_exprs_spec P) as (avg & lo & hi & Ea & Er & _).
  unfold ebay_payload. rewrite Ea, Er, E4. simpl res_bind.
  intros H. injection H as <- <-.
  exists results, completed, active, items, P, avg, lo, hi.
  now repeat split.
Qed.

(** X7.  A successful eBay fetch makes exactly two remote calls, in this
    order: the active search, restricted to the country iff one is given,
    and the sold search, which carries the sold-only filter in place of
    the country filter. *)
Theorem ebay_call_sequence (kw c : string) (log log' : list Call)
    (payload : pyval) :
  fetch_ebay_trends kw c log = (Ok payload, log') ->
  exists r1 r2,
    log' = (log ++ [ebay_execute "findItemsAdvanced" r1;
                    ebay_execute "findCompletedItems" r2])%list /\
    keywords r1 = kw /\ keywords r2 = kw /\
    (c = "" -> itemFilter r1 = None) /\
    (c <> "" -> itemFilter r1 = Some [("LocatedIn", c)]) /\
    itemFilter r2 = Some [("SoldItemsOnly", "true")].
Proof.
  intros H. apply fetch_ebay_report in H.
  destruct H as (results & completed & active & items & P & avg & lo & hi & _
                 & _ & _ & _ & _ & _ & _ & _ & ->).
  exists (active_request kw c), (sold_request kw).
  split; [reflexivity|]. split; [reflexivity|]. split; [reflexivity|].
  simpl itemFilter. split; [|split; [|reflexivity]].
  - intros ->. reflexivity.
  - intros Hc. destruct (String.eqb c "") eqn:E; [|reflexivity].
    apply String.eqb_eq in E. now destruct Hc.
Qed.

(** X8.  A successful eBay fetch reports as [active_listings] the integer
    read from the reply's [totalEntries], as [total_results] the number of
    items on the returned page, and as [sold_last_month] the number of
    items of the sold search, 0 when that reply has no [item]. *)
Theorem ebay_counts (kw c : string) (log log' : list Call) (payload : pyval) :
  fetch_ebay_trends kw c log = (Ok payload, log') ->
  exists results completed active items,
    ebay_reply w "findItemsAdvanced" (active_request kw c) = Ok results /\
    ebay_reply w "findCompletedItems" (sold_request kw) = Ok completed /\
    py_int (totalEntries results) = Ok active /\
    item results = Some items /\
    py_getitem payload "active_listings" = Ok (PyInt active) /\
    py_getitem payload "total_results" = Ok (PyInt (py_len items)) /\
    (forall sold,
       item completed = Some sold ->
       py_getitem payload "sold_last_month" = Ok (PyInt (py_len sold))) /\
    (item completed = None ->
     py_getitem payload "sold_last_month" = Ok (PyInt 0)).
Proof.
  intros H. apply fetch_ebay_report in H.
  destruct H as (results & completed & active & items & P & avg & lo & hi & E1
                 & E2 & E3 & E4 & _ & _ & _ & -> & _).
  exists results, completed, active, items.
  repeat (split; [assumption || reflexivity|]).
  split.
  - intros sold Hs. now rewrite Hs.
  - intros Hs. now rewrite Hs.
Qed.

(** X9.  When the reply's [totalEntries] cannot be read as an integer,
    the eBay fetch fails with the eBay error wrapping the conversion
    error, and the sold search is never sent: one call is logged. *)
Theorem ebay_total_entries_unreadable (kw c : string) (log : list Call)
    (results : SearchResult) (e : exn) :
  ebay_reply w "findItemsAdvanced" (active_request kw c) = Ok results ->
  py_int (totalEntries results) = Raise e ->
  fetch_ebay_trends kw c log =
    (Raise (Exception_ "eBay API error" e),
     (log ++ [ebay_execute "findItemsAdvanced" (active_request kw c)])%list).
Proof.
  intros E1 E2. rewrite fetch_ebay_unfold. cbv zeta. now rewrite E1, E2.
Qed.

(** X10.  When the active search's reply has no [item] attribute, the
    eBay fetch fails with the eBay error wrapping an [AttributeError],
    after both searches were sent: the reply of the sold search may lack
    the attribute, the reply of the active search may not. *)
Theorem ebay_reply_without_items_fails (kw c : string) (log : list Call)
    (results completed : SearchResult) (active : Z) :
  ebay_reply w "findItemsAdvanced" (active_request kw c) = Ok results ->
  py_int (totalEntries results) = Ok active ->
  ebay_reply w "findCompletedItems" (sold_request kw) = Ok completed ->
  item results = None ->
  fetch_ebay_trends kw c log =
    (Raise (Exception_ "eBay API error" AttributeError),
     (log ++ [ebay_execute "findItemsAdvanced" (active_request kw c);
              ebay_execute "findCompletedItems" (sold_request kw)])%list).
Proof.
  intros E1 E2 E3 E4. rewrite fetch_ebay_unfold. cbv zeta.
  now rewrite E1, E2, E3, E4.
Qed.


(** *** Etsy: what the loop counts *)

Lemma etsy_body_spec (c : string) (acc acc' : EtsyAcc) (listing : pyval) :
  etsy_body c acc listing = Ok acc' ->
  (exists p, e_prices acc' = (e_prices acc ++ [p])%list) /\
  (handmade_count acc <= handmade_count acc' <= handmade_count acc + 1)%Z /\
  (vintage_count acc <= vintage_count acc' <= vintage_count acc + 1)%Z /\
  domestic acc' =
    (domestic acc + if is_domestic c listing then 1 else 0)%Z /\
  international acc' =
    (international acc + if is_domestic c listing then 0 else 1)%Z.
Proof.
  unfold etsy_body. intros H.
  apply res_bind_Ok in H. destruct H as (raw & Hraw & H).
  apply res_bind_Ok in H. destruct H as (p & _ & H).
  apply res_bind_Ok in H. destruct H as (hm & _ & H).
  apply res_bind_Ok in H. destruct H as (vt & _ & H).
  apply res_bind_Ok in H. destruct H as (shop & Hshop & H).
  apply res_bind_Ok in H. destruct H as (cid & Hcid & H).
  injection H as <-. simpl.
  split; [now exists p|].
  split; [destruct (py_truthy hm); lia|].
  split; [destruct (py_truthy vt); lia|].
  assert (Hd : py_eq_str cid c = is_domestic c listing).
  { destruct listing; try discriminate. simpl in Hshop. simpl.
    destruct (assoc_get d "Shop") as [s|]; injection Hshop as <-.
    - destruct s; try discriminate. simpl in Hcid.
      destruct (assoc_get d0 "country_id"); now injection Hcid as <-.
    - simpl in Hcid. now injection Hcid as <-. }
  rewrite Hd. destruct (is_domestic c listing); split; lia.
Qed.

Lemma etsy_for_each_spec (c : string) (listings : list pyval)
    (acc acc' : EtsyAcc) :
  for_each (etsy_body c) listings acc = Ok acc' ->
  List.length (e_prices acc') =
    (List.length (e_prices acc) + List.length listings)%nat /\
  (handmade_count acc <= handmade_count acc'
   <= handmade_count acc + py_len listings)%Z /\
  (vintage_count acc <= vintage_count acc'
   <= vintage_count acc + py_len listings)%Z /\
  domestic acc' = (domestic acc + count_domestic c listings)%Z /\
  international acc' =
    (international acc + (py_len listings - count_domestic c listings))%Z.
Proof.
  revert acc. induction listings as [|x listings IH]; intros acc; simpl for_each.
  - intros H. injection H as <-. unfold count_domestic, py_len. simpl.
    repeat split; lia.
  - intros H. apply res_bind_Ok in H. destruct H as (acc1 & Hbody & H).
    apply IH in H. destruct H as (Hp & Hh & Hv & Hd & Hi).
    apply etsy_body_spec in Hbody.
    destruct Hbody as ((p & Hp1) & Hh1 & Hv1 & Hd1 & Hi1).
    rewrite Hp1, length_app in Hp. simpl in Hp.
    unfold count_domestic, py_len in *. simpl filter. simpl List.length.
    destruct (is_domestic c x); simpl List.length; repeat split; lia.
Qed.

Lemma count_domestic_bounds (c : string) (listings : list pyval) :
  (0 <= count_domestic c listings <= py_len listings)%Z.
Proof.
  unfold count_domestic, py_len.
  pose proof (filter_length_le (is_domestic c) listings). lia.
Qed.

(** What a successful Etsy fetch went through and reports. *)
Lemma fetch_etsy_report (kw c : string) (log log' : list Call)
    (payload : pyval) :
  fetch_etsy_trends kw c log = (Ok payload, log') ->
  exists listings acc avg lo hi dom intl,
    etsy_listings w kw (if String.eqb c "" then None else Some c) =
      Ok listings /\
    etsy_loop c listings = Ok acc /\
    payload =
      PyDict [("total_listings", PyInt (py_len listings));
              ("avg_price", avg);
              ("price_range", PyDict [("min", lo); ("max", hi)]);
              ("handmade_count", PyInt (handmade_count acc));
              ("vintage_count", PyInt (vintage_count acc));
              ("shop_location_distribution",
               PyDict [("domestic", dom); ("international", intl)])] /\
    avg_price_expr (e_prices acc) = Ok avg /\
    price_range_expr (e_prices acc) = Ok (PyDict [("min", lo); ("max", hi)]) /\
    share_expr (domestic acc) (py_len listings) = Ok dom /\
    share_expr (international acc) (py_len listings) = Ok intl.
Proof.
  intros H. apply fetch_etsy_Ok in H.
  destruct H as (listings & acc & Hsrc & Hloop & Hpay).
  destruct (etsy_payload_shape (py_len listings) acc)
    as (avg & lo & hi & dom & intl & E & E1 & E2 & E3 & E4).
  rewrite E in Hpay. injection Hpay as <-.
  exists listings, acc, avg, lo, hi, dom, intl. now repeat split.
Qed.


(** X13.  In a successful Etsy fetch over a non-empty listing set, the
    domestic share is the number of listings whose shop's country is the
    requested country, divided by the number of listings, and the
    international share is the rest; a listing without shop data counts
    as international. *)
Theorem etsy_domestic_by_shop_country (kw c : string) (log log' : list Call)
    (payload : pyval) :
  fetch_etsy_trends kw c log = (Ok payload, log') ->
  exists listings dom intl,
    etsy_listings w kw (if String.eqb c "" then None else Some c) =
      Ok listings /\
    shares_of payload = Ok (dom, intl) /\
    (listings <> [] ->
     dom = PyFloat (inject_Z (count_domestic c listings) /
                    inject_Z (py_len listings)) /\
     intl = PyFloat (inject_Z (py_len listings - count_domestic c listings) /
                     inject_Z (py_len listings))) /\
    (forall d, assoc_get d "Shop" = None -> is_domestic c (PyDict d) = false).
Proof.
  intros H. apply fetch_etsy_report in H.
  destruct H as (listings & acc & avg & lo & hi & dom & intl & Hsrc & Hloop
                 & -> & _ & _ & Edom & Eintl).
  apply etsy_for_each_spec in Hloop. simpl in Hloop.
  destruct Hloop as (_ & _ & _ & Hd & Hi).
  exists listings, dom, intl.
  split; [exact Hsrc|]. split; [reflexivity|]. split.
  - intros Hne. destruct listings as [|x listings]; [now destruct Hne|].
    pose proof (py_len_cons x listings) as Hlen.
    destruct (share_expr_total (domestic acc) (py_len (x :: listings)))
      as (dom' & E1 & Hpos1 & _).
    destruct (share_expr_total (international acc) (py_len (x :: listings)))
      as (intl' & E2 & Hpos2 & _).
    rewrite Edom in E1. injection E1 as <-.
    rewrite Eintl in E2. injection E2 as <-.
    rewrite (Hpos1 Hlen), (Hpos2 Hlen), Hd, Hi. split; reflexivity.
  - intros d Hshop. simpl. now rewrite Hshop.
Qed.

Lemma share_bounds (k n : Z) :
  (0 < n)%Z -> (0 <= k <= n)%Z ->
  0 <= inject_Z k / inject_Z n /\ inject_Z k / inject_Z n <= 1.
Proof.
  intros Hn [Hk0 Hkn].
  assert (Hpos : 0 < inject_Z n) by (unfold Qlt; simpl; lia).
  split.
  - apply Qle_shift_div_l; [exact Hpos|]. rewrite Qmult_0_l.
    unfold Qle. simpl. lia.
  - apply Qle_shift_div_r; [exact Hpos|]. rewrite Qmult_1_l.
    unfold Qle. simpl. lia.
Qed.

(** X14.  Both shop-location shares a successful Etsy fetch reports are
    numbers between 0 and 1. *)
Theorem etsy_shares_in_unit_interval (kw c : string) (log log' : list Call)
    (payload : pyval) :
  fetch_etsy_trends kw c log = (Ok payload, log') ->
  exists dom intl d i,
    shares_of payload = Ok (dom, intl) /\
    py_num dom = Some d /\ py_num intl = Some i /\
    0 <= d /\ d <= 1 /\ 0 <= i /\ i <= 1.
Proof.
  intros H. apply fetch_etsy_report in H.
  destruct H as (listings & acc & avg & lo & hi & dom & intl & Hsrc & Hloop
                 & -> & _ & _ & Edom & Eintl).
  apply etsy_for_each_spec in Hloop. simpl in Hloop.
  destruct Hloop as (_ & _ & _ & Hd & Hi).
  pose proof (count_domestic_bounds c listings) as Hb.
  destruct (share_expr_total (domestic acc) (py_len listings))
    as (dom' & E1 & Hpos1 & Hzero1).
  destruct (share_expr_total (international acc) (py_len listings))
    as (intl' & E2 & Hpos2 & Hzero2).
  rewrite Edom in E1. injection E1 as <-.
  rewrite Eintl in E2. injection E2 as <-.
  destruct (Z_lt_le_dec 0 (py_len listings)) as [Hlen|Hlen].
  - rewrite (Hpos1 Hlen), (Hpos2 Hlen).
    destruct (share_bounds (k := domestic acc) Hlen) as [Hd0 Hd1]; [lia|].
    destruct (share_bounds (k := international acc) Hlen) as [Hi0 Hi1]; [lia|].
    eexists _, _, _, _. split; [reflexivity|].
    split; [reflexivity|]. split; [reflexivity|]. now repeat split.
  - rewrite (Hzero1 Hlen), (Hzero2 Hlen).
    eexists _, _, _, _. split; [reflexivity|].
    split; [reflexivity|]. split; [reflexivity|].
    repeat split; discriminate.
Qed.

Lemma for_each_In {A S} (body : S -> A -> res S) (l : list A) (s s' : S) :
  for_each body l s = Ok s' ->
  forall x, In x l -> exists s1 s2, body s1 x = Ok s2.
Proof.
  revert s. induction l as [|y l IH]; intros s; simpl.
  - intros _ x [].
  - intros H. apply res_bind_Ok in H. destruct H as (s1 & Hbody & H).
    intros x [<-|Hx].
    + now exists s, s1.
    + exact (IH _ H x Hx).
Qed.

(** X15.  A listing without a ["price"] entry is not skipped: it makes
    the Etsy fetch fail as a whole with the Etsy error, after its one
    remote call. *)
Theorem etsy_listing_without_price_fails (kw c : string) (log : list Call)
    (listings : list pyval) (d : list (string * pyval)) :
  let region := if String.eqb c "" then None else Some c in
  etsy_listings w kw region = Ok listings ->
  In (PyDict d) listings ->
  assoc_get d "price" = None ->
  exists e,
    fetch_etsy_trends kw c log =
      (Raise (Exception_ "Etsy API error" e),
       (log ++ [etsy_findAllListings kw 100 ["MainImage"; "Shop"] region])%list).
Proof.
  intros region Hsrc Hin Hprice.
  unfold fetch_etsy_trends, try_M, bind, remote, lift, raise. cbv zeta.
  fold region. rewrite Hsrc.
  destruct (etsy_loop c listings) as [acc|e] eqn:Hloop.
  - unfold etsy_loop in Hloop.
    destruct (for_each_In _ _ _ Hloop _ Hin) as (s1 & s2 & Hbody).
    unfold etsy_body in Hbody. simpl in Hbody. rewrite Hprice in Hbody.
    discriminate.
  - now exists e.
Qed.

(** *** Google Trends: the run of the adapter, step by step *)

Lemma fetch_google_unfold (kw c : string) (tf : option TimeFrame)
    (log : list Call) :
  let geo := country_code_of c in
  let call1 := pytrends_build_payload [kw] tf geo in
  let failed e := Raise (Exception_ "Google Trends API error" e) in
  fetch_google_trends kw c tf log =
    match pytrends_payload w [kw] tf geo with
    | Raise e => (failed e, log ++ [call1])
    | Ok _ =>
        match pytrends_interest w [kw] tf geo with
        | Raise e => (failed e, log ++ [call1; pytrends_interest_over_time])
        | Ok df =>
            match pytrends_queries w [kw] tf geo with
            | Raise e =>
                (failed e,
                 log ++ [call1; pytrends_interest_over_time;
                         pytrends_related_queries])
            | Ok rq =>
                match pytrends_topics w [kw] tf geo with
                | Raise e =>
                    (failed e,
                     log ++ [call1; pytrends_interest_over_time;
                             pytrends_related_queries; pytrends_related_topics])
                | Ok rt =>
                    (match google_payload kw df rq rt with
                     | Ok payload => Ok payload
                     | Raise e => failed e
                     end,
                     log ++ [call1; pytrends_interest_over_time;
                             pytrends_related_queries; pytrends_related_topics])
                end
            end
        end
    end%list.
Proof.
  cbv zeta. unfold fetch_google_trends, country_code_of.
  unfold try_M, bind, remote, lift, raise. cbv zeta.
  destruct (pytrends_payload w [kw] tf _) as [[]|e]; [|reflexivity].
  rewrite <- !app_assoc. simpl app.
  destruct (pytrends_interest w [kw] tf _) as [df|e]; [|reflexivity].
  destruct (pytrends_queries w [kw] tf _) as [rq|e]; [|reflexivity].
  destruct (pytrends_topics w [kw] tf _) as [rt|e]; [|reflexivity].
  destruct (google_payload kw df rq rt); reflexivity.
Qed.

Lemma lower_ascii_idempotent (a : ascii) :
  lower_ascii (lower_ascii a) = lower_ascii a.
Proof.
  destruct a as [[] [] [] [] [] [] [] []]; reflexivity.
Qed.

Lemma lower_idempotent (s : string) : lower (lower s) = lower s.
Proof.
  induction s as [|a s IH]; simpl; [reflexivity|].
  now rewrite lower_ascii_idempotent, IH.
Qed.

(** X16.  For a country name of ASCII characters: whatever happens
    afterwards, the Google adapter's first remote call builds the pytrends
    payload for the keyword, the given timeframe and a region code, and
    at most three calls follow.  The code is the table's entry for the
    country name in lower case, so the lookup ignores the case of the
    letters, and ["US"] for a name the table does not have. *)
Theorem google_region_code (kw c : string) (tf : option TimeFrame)
    (log : list Call) :
  is_ascii c = true ->
  (exists r rest,
     fetch_google_trends kw c tf log =
       (r, (log ++ pytrends_build_payload [kw] tf (country_code_of c) :: rest)%list) /\
     (List.length rest <= 3)%nat) /\
  In (country_code_of c) ["US"; "GB"; "CA"; "AU"; "DE"] /\
  country_code_of (lower c) = country_code_of c /\
  (forall name code,
     In (name, code) country_codes -> lower c = name ->
     country_code_of c = code) /\
  ((forall name code, In (name, code) country_codes -> lower c <> name) ->
   country_code_of c = "US").
Proof.
  intros _. split; [|split; [|split; [|split]]].
  - rewrite fetch_google_unfold. cbv zeta.
    destruct (pytrends_payload w [kw] tf _) as [u|e];
      [|eexists _, []; split; [reflexivity | simpl; lia]].
    destruct (pytrends_interest w [kw] tf _) as [df|e];
      [|eexists _, [_]; split; [reflexivity | simpl; lia]].
    destruct (pytrends_queries w [kw] tf _) as [rq|e];
      [|eexists _, [_; _]; split; [reflexivity | simpl; lia]].
    destruct (pytrends_topics w [kw] tf _) as [rt|e];
      eexists _, [_; _; _]; split; try reflexivity; simpl; lia.
  - unfold country_code_of, country_codes. cbn [assoc_get].
    repeat match goal with
           | |- context [String.eqb ?a ?b] => destruct (String.eqb a b)
           end; simpl; auto 10.
  - unfold country_code_of. now rewrite lower_idempotent.
  - intros name code Hin Hname. unfold country_code_of. rewrite Hname.
    simpl in Hin.
    repeat (destruct Hin as [Hin|Hin];
            [injection Hin as <- <-; reflexivity|]).
    now destruct Hin.
  - intros Hnone. unfold country_code_of, country_codes. cbn [assoc_get].
    repeat match goal with
           | |- context [String.eqb ?a ?b] =>
               let E := fresh "E" in
               destruct (String.eqb a b) eqn:E;
               [apply String.eqb_eq in E; symmetry in E;
                exfalso; eapply Hnone; [|exact E]; simpl; eauto 10|]
           end.
    reflexivity.
Qed.


(** X18.  Building the Google payload fails only with a [KeyError], and
    exactly when a lookup by the keyword misses: the column of a
    non-empty data frame, the entry of the related queries, or the entry
    of the related topics.  An empty frame or a part that is [None] never
    makes it fail. *)
Theorem google_payload_failure (kw : string) (df : DataFrame)
    (rq rt : list (string * Related)) (e : exn) :
  google_payload kw df rq rt = Raise e <->
  e = KeyError /\
  ((empty df = false /\ assoc_get (columns df) kw = None) \/
   assoc_get rq kw = None \/
   assoc_get rt kw = None).
Proof.
  unfold google_payload, related_expr.
  destruct (empty df); destruct (assoc_get (columns df) kw) as [col|];
    destruct (assoc_get rq kw) as [q|]; destruct (assoc_get rt kw) as [t|];
    simpl; split.
  all: try (intros H; discriminate H).
  all: try (intros H; injection H as <-; now auto).
  all: intros [He [[H1 H2]|[H|H]]]; subst e; congruence.
Qed.

(** *** The sentiment rules on populated trend data *)

Lemma py_get_present (td v default : pyval) (k : string) :
  py_getitem td k = Ok v -> py_get td k default = Ok v.
Proof.
  destruct td; simpl; try discriminate.
  destruct (assoc_get d k); [auto | discriminate].
Qed.

Lemma full_scale_positive (p : Platform) : 0 < full_scale p.
Proof.
  destruct p; reflexivity.
Qed.

Lemma sentiment_rule_metric (p : Platform) (td sm v : pyval) :
  py_getitem td (summary_key p) = Ok sm ->
  py_getitem sm (metric_key p) = Ok v ->
  sentiment_rule td (PyStr (Platform_value p)) =
    (let! r := py_truediv v (full_scale p) in Ok (py_min2 r 1)).
Proof.
  intros Hsm Hv. unfold sentiment_rule.
  destruct p; simpl py_eq_str; cbv iota;
    simpl summary_key in Hsm; simpl metric_key in Hv;
    rewrite (@py_get_present _ _ (PyDict []) _ Hsm); simpl res_bind;
    rewrite (@py_get_present _ _ (PyInt 0) _ Hv); reflexivity.
Qed.

Lemma populated_sentiment (p : Platform) (td sm v : pyval) (x : Q) :
  py_getitem td (summary_key p) = Ok sm ->
  py_getitem sm (metric_key p) = Ok v ->
  float_operand v = Ok x ->
  calculate_market_sentiment td (PyStr (Platform_value p)) =
    Ok (py_min2 (x / full_scale p) 1).
Proof.
  intros Hsm Hv Hx. unfold calculate_market_sentiment.
  rewrite (sentiment_rule_metric p _ Hsm Hv).
  unfold py_truediv. rewrite Hx.
  destruct p; reflexivity.
Qed.

Lemma float_operand_not_a_number (v : pyval) :
  py_num v = None -> float_operand v = Raise TypeError.
Proof.
  destruct v; simpl; intros E; try discriminate; reflexivity.
Qed.

(** X19.  When the trend data carries the metric a platform's rule reads
    (the average rating out of 5 for Amazon, a percentage for eBay and
    Google) and the metric is a finite float, or a [bool] or an [int]
    that converts to one, the sentiment is the metric divided by its full
    scale as long as the metric does not exceed the scale, and 1 from
    there on. *)
Theorem sentiment_saturates (p : Platform) (td sm v : pyval) (x : Q) :
  py_getitem td (summary_key p) = Ok sm ->
  py_getitem sm (metric_key p) = Ok v ->
  float_operand v = Ok x ->
  exists s,
    calculate_market_sentiment td (PyStr (Platform_value p)) = Ok s /\
    (x <= full_scale p -> s == x / full_scale p) /\
    (full_scale p <= x -> s == 1).
Proof.
  intros Hsm Hv Hx. eexists. split; [exact (populated_sentiment p _ Hsm Hv Hx)|].
  pose proof (full_scale_positive p) as Hpos.
  unfold py_min2. destruct (Qltb 1 (x / full_scale p)) eqn:E.
  - apply Qltb_true in E. split; [|reflexivity].
    intros Hle. exfalso. apply (Qlt_not_le _ _ E).
    apply Qle_shift_div_r; [exact Hpos|]. now rewrite Qmult_1_l.
  - apply Qltb_false in E. split; [reflexivity|].
    intros Hge. apply Qle_antisym; [exact E|].
    apply Qle_shift_div_l; [exact Hpos|]. now rewrite Qmult_1_l.
Qed.

(** X20.  The sentiment is monotone in the metric: of two trend data for
    the same platform whose metrics are finite floats, or [bool]s or
    [int]s that convert to floats, the one with the larger metric never
    gets the smaller sentiment. *)
Theorem sentiment_monotone (p : Platform) (td1 td2 sm1 sm2 v1 v2 : pyval)
    (x1 x2 : Q) :
  py_getitem td1 (summary_key p) = Ok sm1 ->
  py_getitem sm1 (metric_key p) = Ok v1 ->
  float_operand v1 = Ok x1 ->
  py_getitem td2 (summary_key p) = Ok sm2 ->
  py_getitem sm2 (metric_key p) = Ok v2 ->
  float_operand v2 = Ok x2 ->
  x1 <= x2 ->
  exists s1 s2,
    calculate_market_sentiment td1 (PyStr (Platform_value p)) = Ok s1 /\
    calculate_market_sentiment td2 (PyStr (Platform_value p)) = Ok s2 /\
    s1 <= s2.
Proof.
  intros Hsm1 Hv1 Hx1 Hsm2 Hv2 Hx2 Hle.
  eexists _, _.
  split; [exact (populated_sentiment p _ Hsm1 Hv1 Hx1)|].
  split; [exact (populated_sentiment p _ Hsm2 Hv2 Hx2)|].
  assert (Hdiv : x1 / full_scale p <= x2 / full_scale p).
  { unfold Qdiv. apply Qmult_le_compat_r; [exact Hle|].
    apply Qlt_le_weak, Qinv_lt_0_compat, full_scale_positive. }
  unfold py_min2.
  destruct (Qltb 1 (x1 / full_scale p)) eqn:E1;
    destruct (Qltb 1 (x2 / full_scale p)) eqn:E2.
  - apply Qle_refl.
  - apply Qltb_true in E1. apply Qltb_false in E2.
    apply Qlt_le_weak. eapply Qlt_le_trans; [exact E1 | exact Hdiv].
  - now apply Qltb_false in E1.
  - exact Hdiv.
Qed.

(** X21.  A metric that is present but is not a number, a summary entry
    that is present but is not a dict, and trend data that is not a dict
    are all scored with the neutral 0.5. *)
Theorem malformed_metric_is_neutral (p : Platform) (td : pyval) :
  (forall d, td <> PyDict d) \/
  (exists sm,
     py_getitem td (summary_key p) = Ok sm /\ forall d, sm <> PyDict d) \/
  (exists sm v,
     py_getitem td (summary_key p) = Ok sm /\
     py_getitem sm (metric_key p) = Ok v /\
     py_num v = None) ->
  calculate_market_sentiment td (PyStr (Platform_value p)) = Ok (1 # 2).
Proof.
  intros [Htd|[(sm & Hsm & Hnd)|(sm & v & Hsm & Hv & Hx)]];
    unfold calculate_market_sentiment.
  - assert (E : forall k default, py_get td k default = Raise AttributeError).
    { intros k default. destruct td; try reflexivity. now destruct (Htd d). }
    unfold sentiment_rule. destruct p; simpl py_eq_str; cbv iota;
      rewrite E; reflexivity.
  - assert (E : forall k default, py_get sm k default = Raise AttributeError).
    { intros k default. destruct sm; try reflexivity. now destruct (Hnd d). }
    unfold sentiment_rule. destruct p; simpl py_eq_str; cbv iota;
      simpl summary_key in Hsm;
      rewrite (@py_get_present _ _ (PyDict []) _ Hsm);
      simpl res_bind; rewrite E; reflexivity.
  - rewrite (sentiment_rule_metric p _ Hsm Hv).
    unfold py_truediv. now rewrite (float_operand_not_a_number _ Hx).
Qed.

(** X22.  For a platform value that is none of the three members'
    values, the sentiment is the neutral 0.5 whatever the trend data is,
    well-formed or not. *)
Theorem unknown_platform_is_neutral (td platform : pyval) :
  (forall p, py_eq_str platform (Platform_value p) = false) ->
  calculate_market_sentiment td platform = Ok (1 # 2).
Proof.
  intros H. unfold calculate_market_sentiment, sentiment_rule.
  now rewrite (H AMAZON), (H EBAY), (H GOOGLE).
Qed.

(** X30.  A metric that is an [int] too large for a float, 2**1024 -
    2**970 or more in absolute value, makes the division of the rule
    overflow, and the sentiment is the neutral 0.5. *)
Theorem oversized_metric_is_neutral (p : Platform) (td sm : pyval) (z : Z) :
  py_getitem td (summary_key p) = Ok sm ->
  py_getitem sm (metric_key p) = Ok (PyInt z) ->
  (float_overflow <= Z.abs z)%Z ->
  sentiment_rule td (PyStr (Platform_value p)) = Raise OverflowError /\
  calculate_market_sentiment td (PyStr (Platform_value p)) = Ok (1 # 2).
Proof.
  intros Hsm Hv Hz. unfold calculate_market_sentiment.
  rewrite (sentiment_rule_metric p _ Hsm Hv).
  unfold py_truediv, float_operand, float_of_int.
  apply Z.ltb_ge in Hz. rewrite Hz. split; reflexivity.
Qed.

(** *** Validation of the request body *)

Lemma Platform_of_value_sound (s : string) (p : Platform) :
  Platform_of_value s = Some p -> Platform_value p = s.
Proof.
  unfold Platform_of_value. cbn [find Platform_value].
  destruct (String.eqb "amazon" s) eqn:E1;
    [|destruct (String.eqb "ebay" s) eqn:E2;
      [|destruct (String.eqb "google" s) eqn:E3]];
    intros H; try discriminate; injection H as <-;
    now apply String.eqb_eq.
Qed.

Lemma TimeFrame_of_value_sound (s : string) (t : TimeFrame) :
  TimeFrame_of_value s = Some t -> TimeFrame_value t = s.
Proof.
  unfold TimeFrame_of_value. cbn [find TimeFrame_value].
  repeat match goal with
         | |- context [String.eqb ?a s] =>
             let E := fresh "E" in
             destruct (String.eqb a s) eqn:E;
             [intros H; injection H as <-; now apply String.eqb_eq|]
         end.
  discriminate.
Qed.

(** X24.  Both enumerations are read back by value: a member's value
    names that member, and a string names a member only if it is that
    member's value; so the values are pairwise distinct and exactly
    ["amazon"], ["ebay"] and ["google"] name a platform. *)
Theorem enum_value_round_trip :
  (forall p, Platform_of_value (Platform_value p) = Some p) /\
  (forall s p, Platform_of_value s = Some p -> Platform_value p = s) /\
  (forall t, TimeFrame_of_value (TimeFrame_value t) = Some t) /\
  (forall s t, TimeFrame_of_value s = Some t -> TimeFrame_value t = s).
Proof.
  split; [|split; [|split]].
  - intros p. destruct p; reflexivity.
  - exact Platform_of_value_sound.
  - intros t. destruct t; reflexivity.
  - exact TimeFrame_of_value_sound.
Qed.

(** X25.  A body is accepted exactly when its platform names a member of
    the enumeration, its country has 2 to 56 code points, its keyword has
    1 to 100 code points and its timeframe is missing, null, or the value
    of a member; the request then carries the same country and keyword,
    and the timeframe of the last three months when none was given. *)
Theorem validation_accepts (raw : RawRequest) (request : TrendRequest.t) :
  TrendRequest_validate raw = Ok request <->
  Platform_of_value (raw_platform raw) = Some (TrendRequest.platform request) /\
  TrendRequest.country request = raw_country raw /\
  (2 <= str_len (raw_country raw) <= 56)%nat /\
  TrendRequest.keyword request = raw_keyword raw /\
  (1 <= str_len (raw_keyword raw) <= 100)%nat /\
  match raw_timeframe raw with
  | None => TrendRequest.timeframe request = Some LAST_3_MONTHS
  | Some None => TrendRequest.timeframe request = None
  | Some (Some s) =>
      exists t,
        TimeFrame_of_value s = Some t /\
        TrendRequest.timeframe request = Some t
  end.
Proof.
  unfold TrendRequest_validate, length_ok. cbv zeta.
  destruct (Platform_of_value (raw_platform raw)) as [p|].
  2: { split; [discriminate | intros [H _]; discriminate]. }
  destruct (Nat.leb 2 (str_len (raw_country raw))) eqn:C1;
    destruct (Nat.leb (str_len (raw_country raw)) 56) eqn:C2;
    destruct (Nat.leb 1 (str_len (raw_keyword raw))) eqn:K1;
    destruct (Nat.leb (str_len (raw_keyword raw)) 100) eqn:K2;
    first [apply Nat.leb_le in C1 | apply Nat.leb_gt in C1];
    first [apply Nat.leb_le in C2 | apply Nat.leb_gt in C2];
    first [apply Nat.leb_le in K1 | apply Nat.leb_gt in K1];
    first [apply Nat.leb_le in K2 | apply Nat.leb_gt in K2];
    simpl andb; cbv iota.
  all: destruct (raw_timeframe raw) as [[s|]|];
    [destruct (TimeFrame_of_value s) as [t|]| |]; simpl.
  all: split;
    [intros H; try discriminate H; injection H as <-; simpl;
     repeat split; try lia; eauto
    |intros (Hp & Hc & Hcl & Hk & Hkl & Ht); try lia;
     try (destruct Ht as (t' & Ht' & Ht); try discriminate Ht');
     destruct request as [p' c' k' tf']; simpl in *;
     try (injection Ht' as <-); congruence].
Qed.

(** X26.  A body that fails validation is rejected with an error that
    names exactly the fields at fault, the lengths being counted in code
    points, and nothing is sent to any remote source. *)
Theorem invalid_body_rejected (raw : RawRequest) (e : exn) (log : list Call) :
  TrendRequest_validate raw = Raise e ->
  exists fields,
    e = ValidationError fields /\
    post_trends raw log = (Raise (ValidationError fields), log) /\
    fields <> [] /\
    (In "platform" fields <-> Platform_of_value (raw_platform raw) = None) /\
    (In "country" fields <->
     ~ (2 <= str_len (raw_country raw) <= 56)%nat) /\
    (In "keyword" fields <->
     ~ (1 <= str_len (raw_keyword raw) <= 100)%nat) /\
    (In "timeframe" fields <->
     exists s,
       raw_timeframe raw = Some (Some s) /\ TimeFrame_of_value s = None).
Proof.
  intros H. unfold post_trends. rewrite H.
  unfold TrendRequest_validate, length_ok in H. cbv zeta in H.
  destruct (Platform_of_value (raw_platform raw)) as [p|];
    destruct (Nat.leb 2 (str_len (raw_country raw))) eqn:C1;
    destruct (Nat.leb (str_len (raw_country raw)) 56) eqn:C2;
    destruct (Nat.leb 1 (str_len (raw_keyword raw))) eqn:K1;
    destruct (Nat.leb (str_len (raw_keyword raw)) 100) eqn:K2;
    first [apply Nat.leb_le in C1 | apply Nat.leb_gt in C1];
    first [apply Nat.leb_le in C2 | apply Nat.leb_gt in C2];
    first [apply Nat.leb_le in K1 | apply Nat.leb_gt in K1];
    first [apply Nat.leb_le in K2 | apply Nat.leb_gt in K2];
    simpl andb in H; cbv iota in H.
  all: destruct (raw_timeframe raw) as [[s|]|];
    [destruct (TimeFrame_of_value s) as [t|] eqn:Et| |]; simpl in H;
    try discriminate H; injection H as <-.
  all: eexists; split; [reflexivity|]; split; [reflexivity|];
    split; [discriminate|]; simpl.
  all: repeat split; intros; try lia; try discriminate;
    repeat match goal with
           | H : _ \/ _ |- _ => destruct H
           | H : False |- _ => destruct H
           | H : exists _, _ |- _ => destruct H as (? & ? & ?)
           | H : Some _ = Some _ |- _ => injection H as <-
           end;
    try discriminate; try congruence; try lia; eauto 10.
Qed.

(** *** What the Amazon adapter does not look at *)

(** X27.  The Amazon adapter uses neither the country nor the timeframe
    of the request: two Amazon requests for the same keyword make the
    same remote call and get responses with the same payload, price
    range, search volume and sentiment. *)
Theorem amazon_ignores_country_and_timeframe (r1 r2 : TrendRequest.t)
    (log log1 : list Call) (resp1 : TrendData.t) :
  TrendRequest.platform r1 = AMAZON ->
  TrendRequest.platform r2 = AMAZON ->
  TrendRequest.keyword r1 = TrendRequest.keyword r2 ->
  get_trends r1 log = (Ok resp1, log1) ->
  exists resp2,
    get_trends r2 log = (Ok resp2, log1) /\
    TrendData.trend_data resp2 = TrendData.trend_data resp1 /\
    TrendData.price_range resp2 = TrendData.price_range resp1 /\
    TrendData.search_volume resp2 = TrendData.search_volume resp1 /\
    TrendData.market_sentiment resp2 = TrendData.market_sentiment resp1.
Proof.
  intros P1 P2 K H.
  destruct (get_trends_Ok _ _ H)
    as (payload & s & sv & Hf & Hs & Hpr & Hget & Hsv & Htd & Hms).
  assert (Hf2 : fetched r2 log = (Ok payload, log1)).
  { unfold fetched in *. rewrite P1 in Hf. rewrite P2, <- K. exact Hf. }
  destruct (assemble_fetched _ _ Hf2) as (resp2 & Ha & _).
  assert (G : get_trends r2 log = (Ok resp2, log1))
    by (now rewrite get_trends_step, Hf2, Ha).
  exists resp2. split; [exact G|].
  destruct (get_trends_Ok _ _ G)
    as (payload' & s' & sv' & Hf' & Hs' & Hpr' & Hget' & Hsv' & Htd' & Hms').
  rewrite Hf2 in Hf'. injection Hf' as <-.
  rewrite P1 in Hs. rewrite P2 in Hs'.
  repeat split; congruence.
Qed.

(** *** The remote calls of a request *)

Lemma fetch_amazon_unfold (kw c : string) (log : list Call) :
  fetch_amazon_trends kw c log =
    (match amazon_items w kw with
     | Raise e => Raise (Exception_ "Amazon API error" e)
     | Ok items =>
         match amazon_loop items with
         | Raise e => Raise (Exception_ "Amazon API error" e)
         | Ok acc =>
             match amazon_payload acc with
             | Ok payload => Ok payload
             | Raise e => Raise (Exception_ "Amazon API error" e)
             end
         end
     end,
     (log ++ [amazon_search_items kw])%list).
Proof.
  unfold fetch_amazon_trends, try_M, bind, remote, lift, raise.
  destruct (amazon_items w kw) as [items|e]; [|reflexivity].
  destruct (amazon_loop items) as [acc|e]; [|reflexivity].
  destruct (amazon_payload acc); reflexivity.
Qed.

Lemma get_trends_log (request : TrendRequest.t) (log : list Call) :
  snd (get_trends request log) = snd (fetched request log).
Proof.
  rewrite get_trends_step.
  destruct (fetched request log) as [[payload|e] log1]; [|reflexivity].
  destruct (assemble request payload); reflexivity.
Qed.

(** X29.  A request only adds to the log of remote calls, and what it
    adds are calls to the source of its own platform, never to Etsy: one
    call for Amazon, one or two for eBay, one to four for Google,
    whether the request succeeds or fails. *)
Theorem remote_call_budget (request : TrendRequest.t) (log : list Call) :
  exists calls,
    snd (get_trends request log) = (log ++ calls)%list /\
    (1 <= List.length calls <= call_budget (TrendRequest.platform request))%nat /\
    Forall (fun c => call_source c = Some (TrendRequest.platform request)) calls.
Proof.
  rewrite get_trends_log. unfold fetched.
  destruct (TrendRequest.platform request).
  - rewrite fetch_amazon_unfold. eexists. split; [reflexivity|].
    split; [simpl; lia | repeat constructor].
  - rewrite fetch_ebay_unfold. cbv zeta.
    destruct (ebay_reply w "findItemsAdvanced" _) as [results|e];
      [destruct (py_int (totalEntries results)) as [active|e];
       [destruct (ebay_reply w "findCompletedItems" _) as [completed|e];
        [destruct (item results) as [items|];
         [destruct (for_each ebay_body items []) as [P|e];
          [destruct (ebay_payload active results completed P)|]|]|]|]|];
      (eexists; split; [reflexivity|];
       split; [simpl; lia | repeat constructor]).
  - rewrite fetch_google_unfold. cbv zeta.
    destruct (pytrends_payload w _ _ _) as [u|e];
      [destruct (pytrends_interest w _ _ _) as [df|e];
       [destruct (pytrends_queries w _ _ _) as [rq|e];
        [destruct (pytrends_topics w _ _ _) as [rt|e]|]|]|];
      (eexists; split; [reflexivity|];
       split; [simpl; lia | repeat constructor]).
Qed.

(** *** The price summary of a run *)



End Service.

(** ** The scenarios, evaluated *)

(** C1, at the scenario of the specification.  Three Amazon results
    priced 10, 20 and 30, rated 4, 5 and not at all: the adapter reports an
    average price of 20, the range 10 to 30 and an average rating of 3 over
    3 products, and the response carries the sentiment 0, not
    min(3 / 5, 1) = 0.6: the rule looks for the rating under
    ["review_metrics"], where the adapter does not put it. *)
Theorem headphones_sentiment :
  exists resp log' avg rating s,
    get_trends no_float no_int market headphones [] = (Ok resp, log') /\
    py_getitem (TrendData.trend_data resp) "avg_price" = Ok (PyFloat avg) /\
    avg == 20 /\
    py_getitem (TrendData.trend_data resp) "price_range" =
      Ok (PyDict [("min", PyFloat 10); ("max", PyFloat 30)]) /\
    py_getitem (TrendData.trend_data resp) "avg_rating" = Ok (PyFloat rating) /\
    rating == 3 /\
    py_getitem (TrendData.trend_data resp) "total_products" = Ok (PyInt 3) /\
    TrendData.market_sentiment resp = Some s /\
    s == 0 /\
    ~ s == py_min2 (rating / 5) 1.
Proof.
  eexists _, _, _, _, _.
  split; [vm_compute; reflexivity|].
  split; [reflexivity|]. split; [reflexivity|].
  split; [reflexivity|].
  split; [reflexivity|]. split; [reflexivity|].
  split; [reflexivity|].
  split; [reflexivity|]. split; [reflexivity|].
  vm_compute. discriminate.
Qed.

(** C2, counterexample.  The eBay request of the scenario succeeds with
    sentiment 0, which is not the neutral 0.5. *)
Lemma smart_watch_sentiment_not_neutral :
  exists resp log' s,
    get_trends no_float no_int market smart_watch [] = (Ok resp, log') /\
    TrendData.market_sentiment resp = Some s /\
    s == 0 /\
    ~ s == 1 # 2.
Proof.
  eexists _, _, _.
  split; [vm_compute; reflexivity|].
  split; [reflexivity|]. split; [reflexivity|].
  vm_compute. discriminate.
Qed.

(** C2, witness: the eBay request of the scenario. *)
Lemma ebay_google_sentiment_zero_witness :
  exists resp log',
    get_trends no_float no_int market smart_watch [] = (Ok resp, log') /\
    exists s,
      TrendData.market_sentiment resp = Some s /\
      s == 0 /\
      sentiment_rule (TrendData.trend_data resp) (PyStr "ebay") = Ok s /\
      py_contains "condition_distribution" (TrendData.trend_data resp) =
        Ok false /\
      py_contains "trend_summary" (TrendData.trend_data resp) = Ok false.
Proof.
  eexists _, _.
  split; [vm_compute; reflexivity|].
  eapply (@ebay_google_sentiment_zero no_float no_int market smart_watch []).
  - left. reflexivity.
  - vm_compute. reflexivity.
Defined.

(** C5, counterexample.  Amazon returns two results without an offer: the
    adapter collects no price, and the response still carries a price
    range, with both bounds 0. *)
Lemma unpriced_price_range_present :
  exists items acc resp log',
    amazon_items unpriced_market "wireless headphones" = Ok items /\
    amazon_loop items = Ok acc /\
    a_prices acc = [] /\
    get_trends no_float no_int unpriced_market headphones [] = (Ok resp, log') /\
    TrendData.price_range resp =
      Some {| PriceRange.min := 0; PriceRange.max := 0 |} /\
    TrendData.price_range resp <> None.
Proof.
  eexists _, _, _, _.
  split; [reflexivity|].
  split; [vm_compute; reflexivity|].
  split; [reflexivity|].
  split; [vm_compute; reflexivity|].
  split; [reflexivity | discriminate].
Qed.

(** C5, witness: the Amazon request of the scenario. *)
Lemma price_range_presence_witness :
  exists resp log',
    get_trends no_float no_int market headphones [] = (Ok resp, log') /\
    (TrendData.price_range resp <> None <->
     py_contains "price_range" (TrendData.trend_data resp) = Ok true) /\
    (TrendRequest.platform headphones <> GOOGLE ->
     exists r, TrendData.price_range resp = Some r) /\
    (TrendRequest.platform headphones = GOOGLE ->
     TrendData.price_range resp = None).
Proof.
  eexists _, _.
  split; [vm_compute; reflexivity|].
  eapply (@price_range_presence no_float no_int market headphones []).
  vm_compute. reflexivity.
Defined.

(** C6, counterexample.  The eBay payload of the scenario has no
    ["total_products"] entry, and the response carries the search volume
    0: the field is not absent. *)
Lemma smart_watch_search_volume_present :
  exists resp log',
    get_trends no_float no_int market smart_watch [] = (Ok resp, log') /\
    py_contains "total_products" (TrendData.trend_data resp) = Ok false /\
    TrendData.search_volume resp = Some 0%Z /\
    TrendData.search_volume resp <> None.
Proof.
  eexists _, _.
  split; [vm_compute; reflexivity|].
  split; [reflexivity|].
  split; [reflexivity | discriminate].
Qed.

(** C6, witness: the eBay request of the scenario. *)
Lemma search_volume_source_witness :
  exists resp log',
    get_trends no_float no_int market smart_watch [] = (Ok resp, log') /\
    (forall v,
       py_getitem (TrendData.trend_data resp) "total_products" = Ok v ->
       optional_int no_int v = Ok (TrendData.search_volume resp)) /\
    (py_contains "total_products" (TrendData.trend_data resp) = Ok false ->
     TrendData.search_volume resp = Some 0%Z) /\
    (TrendRequest.platform smart_watch = EBAY ->
     py_contains "total_products" (TrendData.trend_data resp) = Ok false).
Proof.
  eexists _, _.
  split; [vm_compute; reflexivity|].
  eapply (@search_volume_source no_float no_int market smart_watch []).
  vm_compute. reflexivity.
Defined.

(** C8, witness: three listings, two of them from the requested country. *)
Lemma etsy_shares_witness :
  exists acc,
    etsy_listings market "handmade jewelry" (Some "Canada") =
      Ok canadian_listings /\
    etsy_loop no_float "Canada" canadian_listings = Ok acc /\
    exists payload log' dom intl,
      fetch_etsy_trends no_float market "handmade jewelry" "Canada" [] =
        (Ok payload, log') /\
      shares_of payload = Ok (dom, intl) /\
      (canadian_listings <> [] ->
       exists d i, dom = PyFloat d /\ intl = PyFloat i /\ d + i == 1) /\
      (canadian_listings = [] -> dom = PyInt 0 /\ intl = PyInt 0).
Proof.
  eexists.
  split; [reflexivity|].
  split; [vm_compute; reflexivity|].
  eapply (@etsy_shares no_float market "handmade jewelry" "Canada" []
            canadian_listings).
  - reflexivity.
  - vm_compute. reflexivity.
Defined.

(** C9, witness: the Etsy request of the sample script.  The Etsy adapter
    exists, but ["etsy"] names no member of [Platform]. *)
Lemma unregistered_source_rejected_witness :
  registered_handler "etsy" = None /\
  exists fields,
    post_trends no_float no_int market jewelry_on_etsy [] =
      (Raise (ValidationError fields), []) /\
    In "platform" fields.
Proof.
  split; [reflexivity|].
  apply (@unregistered_source_rejected no_float no_int market jewelry_on_etsy []).
  reflexivity.
Defined.

(** C10, witness: the Amazon payload of the scenario. *)
Lemma emitted_price_range_ordered_witness :
  exists payload log',
    fetch_amazon_trends market "wireless headphones" "United States" [] =
      (Ok payload, log') /\
    exists lo hi a b,
      py_getitem payload "price_range" =
        Ok (PyDict [("min", lo); ("max", hi)]) /\
      py_num lo = Some a /\ py_num hi = Some b /\ a <= b.
Proof.
  eexists _, _.
  split; [vm_compute; reflexivity|].
  eapply (proj1 (@emitted_price_range_ordered no_float no_int market
                   "wireless headphones" "United States" [] _ _)).
  left. vm_compute. reflexivity.
Defined.

(** C3, beside the counterexample.  The model's numbers are finite.  In
    binary64 a NaN rating is passed through by the Amazon rule:
    [min(nan / 5.0, 1.0)] is NaN, which is neither at most 1 nor at least
    0; an infinite rating is clamped to 1. *)
Lemma nan_metric_sentiment64 :
  PrimFloat.is_nan (sentiment64 nan 5) = true /\
  PrimFloat.leb (sentiment64 nan 5) 1 = false /\
  PrimFloat.leb 0 (sentiment64 nan 5) = false /\
  sentiment64 infinity 5 = 1%float.
Proof.
  vm_compute. repeat split.
Qed.



(** C10, counterexample.  A sample whose first price is NaN, as
    [float("nan")] gives it: in binary64 no later price compares below or
    above the first, so both bounds are NaN and min <= max is false. *)
Lemma nan_price_range_unordered :
  exists lo hi,
    min64 [nan; 50; 70]%float = Some lo /\
    max64 [nan; 50; 70]%float = Some hi /\
    PrimFloat.is_nan lo = true /\
    PrimFloat.is_nan hi = true /\
    PrimFloat.leb lo hi = false.
Proof.
  eexists _, _.
  split; [vm_compute; reflexivity|].
  split; [vm_compute; reflexivity|].
  vm_compute. repeat split.
Qed.

(** ** Further scenarios, evaluated *)

(** X1, witness: of 25 items returned, 20 are examined. *)
Lemma amazon_examines_at_most_twenty_witness :
  exists payload log',
    fetch_amazon_trends crowded_market "phone case" "United States" [] =
      (Ok payload, log') /\
    py_getitem payload "total_products" = Ok (PyInt 20) /\
    exists items,
      amazon_items crowded_market "phone case" = Ok items /\
      py_getitem payload "total_products" =
        Ok (PyInt (Z.min (py_len items) 20)) /\
      log' = ([] ++ [amazon_search_items "phone case"])%list.
Proof.
  eexists _, _.
  split; [vm_compute; reflexivity|]. split; [reflexivity|].
  eapply (@amazon_examines_at_most_twenty crowded_market "phone case"
            "United States" []).
  vm_compute. reflexivity.
Defined.

(** X2, witness: ratings 4 and 5 over three examined items. *)
Lemma amazon_rating_over_examined_witness :
  exists payload log',
    fetch_amazon_trends market "wireless headphones" "United States" [] =
      (Ok payload, log') /\
    exists items ar,
      let examined := firstn 20 items in
      amazon_items market "wireless headphones" = Ok items /\
      py_getitem payload "review_count" = Ok (PyInt (review_total examined)) /\
      py_getitem payload "avg_rating" = Ok ar /\
      (examined = [] -> ar = PyInt 0) /\
      (examined <> [] ->
       exists a,
         ar = PyFloat a /\
         a * inject_Z (py_len examined) == sum_of (rated_values examined)).
Proof.
  eexists _, _.
  split; [vm_compute; reflexivity|].
  eapply (@amazon_rating_over_examined market "wireless headphones"
            "United States" []).
  vm_compute. reflexivity.
Defined.


(** X4, witness: the second item has an offer without a listing. *)
Lemma amazon_offer_without_listing_fails_witness :
  fetch_amazon_trends broken_offer_market "lamp" "Canada" [] =
    (Raise (Exception_ "Amazon API error" IndexError),
     ([] ++ [amazon_search_items "lamp"])%list).
Proof.
  eapply (@amazon_offer_without_listing_fails broken_offer_market "lamp"
            "Canada" []).
  - reflexivity.
  - reflexivity.
Defined.

(** X5, witness: the Amazon request of the scenario. *)
Lemma assembly_never_fails_witness :
  exists payload log',
    fetched no_float no_int market headphones [] = (Ok payload, log') /\
    exists resp,
      get_trends no_float no_int market headphones [] = (Ok resp, log') /\
      TrendData.trend_data resp = payload /\
      TrendData.platform resp =
        Platform_value (TrendRequest.platform headphones) /\
      TrendData.country resp = TrendRequest.country headphones /\
      TrendData.keyword resp = TrendRequest.keyword headphones /\
      TrendData.timestamp resp = now_isoformat market /\
      TrendData.error resp = None.
Proof.
  eexists _, _.
  split; [vm_compute; reflexivity|].
  eapply (@assembly_never_fails no_float no_int market headphones []).
  vm_compute. reflexivity.
Defined.

(** X6, witness: the Amazon source cannot be reached. *)
Lemma get_trends_failure_is_source_failure_witness :
  exists e log',
    get_trends no_float no_int offline_market headphones [] = (Raise e, log') /\
    exists cause,
      e = HTTPException 500 "Error processing request"
            (Some (Exception_ (source_context (TrendRequest.platform headphones))
                     cause)) /\
      fetched no_float no_int offline_market headphones [] =
        (Raise (Exception_ (source_context (TrendRequest.platform headphones))
                  cause), log').
Proof.
  eexists _, _.
  split; [vm_compute; reflexivity|].
  eapply (@get_trends_failure_is_source_failure no_float no_int offline_market
            headphones []).
  vm_compute. reflexivity.
Defined.

(** X7, witness: the eBay search of the scenario, restricted to the
    United Kingdom. *)
Lemma ebay_call_sequence_witness :
  exists payload log',
    fetch_ebay_trends no_float no_int market "smart watch" "United Kingdom" [] =
      (Ok payload, log') /\
    exists r1 r2,
      log' = ([] ++ [ebay_execute "findItemsAdvanced" r1;
                     ebay_execute "findCompletedItems" r2])%list /\
      keywords r1 = "smart watch" /\ keywords r2 = "smart watch" /\
      ("United Kingdom" = "" -> itemFilter r1 = None) /\
      ("United Kingdom" <> "" ->
       itemFilter r1 = Some [("LocatedIn", "United Kingdom")]) /\
      itemFilter r2 = Some [("SoldItemsOnly", "true")].
Proof.
  eexists _, _.
  split; [vm_compute; reflexivity|].
  eapply (@ebay_call_sequence no_float no_int market "smart watch"
            "United Kingdom" []).
  vm_compute. reflexivity.
Defined.

(** X8, witness: [totalEntries] 500 and a page of two items. *)
Lemma ebay_counts_witness :
  exists payload log',
    fetch_ebay_trends no_float no_int market "smart watch" "United Kingdom" [] =
      (Ok payload, log') /\
    exists results completed active items,
      ebay_reply market "findItemsAdvanced"
        (active_request "smart watch" "United Kingdom") = Ok results /\
      ebay_reply market "findCompletedItems" (sold_request "smart watch") =
        Ok completed /\
      py_int no_int (totalEntries results) = Ok active /\
      item results = Some items /\
      py_getitem payload "active_listings" = Ok (PyInt active) /\
      py_getitem payload "total_results" = Ok (PyInt (py_len items)) /\
      (forall sold,
         item completed = Some sold ->
         py_getitem payload "sold_last_month" = Ok (PyInt (py_len sold))) /\
      (item completed = None ->
       py_getitem payload "sold_last_month" = Ok (PyInt 0)).
Proof.
  eexists _, _.
  split; [vm_compute; reflexivity|].
  eapply (@ebay_counts no_float no_int market "smart watch" "United Kingdom" []).
  vm_compute. reflexivity.
Defined.

(** X9, witness: [totalEntries] is [None]. *)
Lemma ebay_total_entries_unreadable_witness :
  fetch_ebay_trends no_float no_int unreadable_total_market "smart watch" "" [] =
    (Raise (Exception_ "eBay API error" TypeError),
     ([] ++ [ebay_execute "findItemsAdvanced"
               (active_request "smart watch" "")])%list).
Proof.
  eapply (@ebay_total_entries_unreadable no_float no_int unreadable_total_market
            "smart watch" "" []).
  - reflexivity.
  - reflexivity.
Defined.

(** X10, witness: a reply without [item]. *)
Lemma ebay_reply_without_items_fails_witness :
  fetch_ebay_trends no_float no_int no_result_market "smart watch" "" [] =
    (Raise (Exception_ "eBay API error" AttributeError),
     ([] ++ [ebay_execute "findItemsAdvanced" (active_request "smart watch" "");
             ebay_execute "findCompletedItems" (sold_request "smart watch")])%list).
Proof.
  eapply (@ebay_reply_without_items_fails no_float no_int no_result_market
            "smart watch" "" []).
  - reflexivity.
  - reflexivity.
  - reflexivity.
  - reflexivity.
Defined.



(** X13, witness: two of the three listings are from Canada. *)
Lemma etsy_domestic_by_shop_country_witness :
  count_domestic "Canada" canadian_listings = 2%Z /\
  exists payload log',
    fetch_etsy_trends no_float market "handmade jewelry" "Canada" [] =
      (Ok payload, log') /\
    exists listings dom intl,
      etsy_listings market "handmade jewelry" (Some "Canada") = Ok listings /\
      shares_of payload = Ok (dom, intl) /\
      (listings <> [] ->
       dom = PyFloat (inject_Z (count_domestic "Canada" listings) /
                      inject_Z (py_len listings)) /\
       intl = PyFloat (inject_Z (py_len listings -
                                 count_domestic "Canada" listings) /
                       inject_Z (py_len listings))) /\
      (forall d,
         assoc_get d "Shop" = None -> is_domestic "Canada" (PyDict d) = false).
Proof.
  split; [reflexivity|].
  eexists _, _.
  split; [vm_compute; reflexivity|].
  eapply (@etsy_domestic_by_shop_country no_float market "handmade jewelry"
            "Canada" []).
  vm_compute. reflexivity.
Defined.

(** X14, witness: the shares 2/3 and 1/3 of the scenario. *)
Lemma etsy_shares_in_unit_interval_witness :
  exists payload log',
    fetch_etsy_trends no_float market "handmade jewelry" "Canada" [] =
      (Ok payload, log') /\
    exists dom intl d i,
      shares_of payload = Ok (dom, intl) /\
      py_num dom = Some d /\ py_num intl = Some i /\
      0 <= d /\ d <= 1 /\ 0 <= i /\ i <= 1.
Proof.
  eexists _, _.
  split; [vm_compute; reflexivity|].
  eapply (@etsy_shares_in_unit_interval no_float market "handmade jewelry"
            "Canada" []).
  vm_compute. reflexivity.
Defined.

(** X15, witness: the second listing has no price. *)
Lemma etsy_listing_without_price_fails_witness :
  exists e,
    fetch_etsy_trends no_float unpriced_listing_market "ring" "Canada" [] =
      (Raise (Exception_ "Etsy API error" e),
       ([] ++ [etsy_findAllListings "ring" 100 ["MainImage"; "Shop"]
                 (Some "Canada")])%list).
Proof.
  eapply (@etsy_listing_without_price_fails no_float unpriced_listing_market
            "ring" "Canada" [] _ [("is_vintage", PyBool true)]).
  - reflexivity.
  - right. left. reflexivity.
  - reflexivity.
Defined.


(** X16, witness: a name of the table, in capitals. *)
Lemma google_region_code_witness :
  is_ascii "UNITED KINGDOM" = true /\
  (exists r rest,
     fetch_google_trends market "smart watch" "UNITED KINGDOM"
       (Some LAST_WEEK) [] =
       (r, pytrends_build_payload ["smart watch"] (Some LAST_WEEK)
             (country_code_of "UNITED KINGDOM") :: rest) /\
     (List.length rest <= 3)%nat) /\
  In (country_code_of "UNITED KINGDOM") ["US"; "GB"; "CA"; "AU"; "DE"] /\
  country_code_of (lower "UNITED KINGDOM") = country_code_of "UNITED KINGDOM" /\
  (forall name code,
     In (name, code) country_codes -> lower "UNITED KINGDOM" = name ->
     country_code_of "UNITED KINGDOM" = code) /\
  ((forall name code,
      In (name, code) country_codes -> lower "UNITED KINGDOM" <> name) ->
   country_code_of "UNITED KINGDOM" = "US").
Proof.
  split; [reflexivity|].
  apply (@google_region_code market "smart watch" "UNITED KINGDOM"
           (Some LAST_WEEK) []).
  reflexivity.
Defined.

(** X19, witness: ratings of 4 and of 6 out of 5. *)
Lemma sentiment_saturates_witness :
  (exists s,
     calculate_market_sentiment (rated (PyInt 4)) (PyStr "amazon") = Ok s /\
     (4 <= full_scale AMAZON -> s == 4 / full_scale AMAZON) /\
     (full_scale AMAZON <= 4 -> s == 1)) /\
  (exists s,
     calculate_market_sentiment (rated (PyInt 6)) (PyStr "amazon") = Ok s /\
     (6 <= full_scale AMAZON -> s == 6 / full_scale AMAZON) /\
     (full_scale AMAZON <= 6 -> s == 1)).
Proof.
  split.
  - eapply (@sentiment_saturates AMAZON (rated (PyInt 4))); reflexivity.
  - eapply (@sentiment_saturates AMAZON (rated (PyInt 6))); reflexivity.
Defined.

(** X20, witness: a rating of 3 against a rating of 4.5. *)
Lemma sentiment_monotone_witness :
  exists s1 s2,
    calculate_market_sentiment (rated (PyInt 3)) (PyStr "amazon") = Ok s1 /\
    calculate_market_sentiment (rated (PyFloat (9 # 2))) (PyStr "amazon") =
      Ok s2 /\
    s1 <= s2.
Proof.
  eapply (@sentiment_monotone AMAZON (rated (PyInt 3))
            (rated (PyFloat (9 # 2)))); try reflexivity.
  unfold Qle. simpl. lia.
Defined.

(** X21, witness: a rating given as text. *)
Lemma malformed_metric_is_neutral_witness :
  calculate_market_sentiment (rated (PyStr "4.5")) (PyStr "amazon") =
    Ok (1 # 2).
Proof.
  apply (@malformed_metric_is_neutral AMAZON (rated (PyStr "4.5"))).
  right. right. eexists _, _.
  split; [reflexivity|]. split; reflexivity.
Defined.

(** X22, witness: the platform value of the sample script's last case. *)
Lemma unknown_platform_is_neutral_witness :
  calculate_market_sentiment PyNone (PyStr "etsy") = Ok (1 # 2).
Proof.
  apply unknown_platform_is_neutral.
  intros p. destruct p; reflexivity.
Defined.

(** X30, witness: a rating of 10**400. *)
Lemma oversized_metric_is_neutral_witness :
  sentiment_rule (rated (PyInt (10 ^ 400))) (PyStr "amazon") =
    Raise OverflowError /\
  calculate_market_sentiment (rated (PyInt (10 ^ 400))) (PyStr "amazon") =
    Ok (1 # 2).
Proof.
  apply (@oversized_metric_is_neutral AMAZON (rated (PyInt (10 ^ 400)))
           (PyDict [("avg_rating", PyInt (10 ^ 400))]) (10 ^ 400));
    try reflexivity.
  vm_compute. discriminate.
Defined.

(** X26, witness: three fields at fault. *)
Lemma invalid_body_rejected_witness :
  exists fields,
    ValidationError ["country"; "keyword"; "timeframe"] =
      ValidationError fields /\
    post_trends no_float no_int market malformed_body [] =
      (Raise (ValidationError fields), []) /\
    fields <> [] /\
    (In "platform" fields <->
     Platform_of_value (raw_platform malformed_body) = None) /\
    (In "country" fields <->
     ~ (2 <= str_len (raw_country malformed_body) <= 56)%nat) /\
    (In "keyword" fields <->
     ~ (1 <= str_len (raw_keyword malformed_body) <= 100)%nat) /\
    (In "timeframe" fields <->
     exists s,
       raw_timeframe malformed_body = Some (Some s) /\
       TimeFrame_of_value s = None).
Proof.
  apply (@invalid_body_rejected no_float no_int market malformed_body).
  reflexivity.
Defined.

(** X27, witness: the same keyword asked for Canada and the last hour. *)
Lemma amazon_ignores_country_and_timeframe_witness :
  exists resp1 log1,
    get_trends no_float no_int market headphones [] = (Ok resp1, log1) /\
    exists resp2,
      get_trends no_float no_int market headphones_in_canada [] =
        (Ok resp2, log1) /\
      TrendData.trend_data resp2 = TrendData.trend_data resp1 /\
      TrendData.price_range resp2 = TrendData.price_range resp1 /\
      TrendData.search_volume resp2 = TrendData.search_volume resp1 /\
      TrendData.market_sentiment resp2 = TrendData.market_sentiment resp1.
Proof.
  eexists _, _.
  split; [vm_compute; reflexivity|].
  eapply (@amazon_ignores_country_and_timeframe no_float no_int market
            headphones headphones_in_canada []).
  - reflexivity.
  - reflexivity.
  - reflexivity.
  - vm_compute. reflexivity.
Defined.

(** X28, witness: one domestic listing of three. *)
Lemma binary64_shares_sum_to_one_witness :
  shares_exact 1%Z 3%Z = true.
Proof.
  apply (@binary64_shares_sum_to_one 1%nat 3%nat); lia.
Defined.
